(** * Smart Solar Repositioning API: the estimator of [backend/main.py]

    A shallow embedding of the request handler [get_solar_data] and of the
    helpers it calls, followed by the properties of the estimator.

    Numbers.  Python's [float] is modelled by the exact rationals [Q]: every
    finite float is a rational, the decimal constants of the source are taken
    at their written value, and [+ - * /] are the exact operations.  The
    rounding error of the binary64 operations is outside the model.  Python's
    [int] is [Z].  Equality of numbers is [Qeq] (written [==]). *)

From Stdlib Require Import QArith Qround Qabs Qminmax ZArith List String Ascii Bool Lia Lqa.
From Stdlib Require Import DecimalString.
Import ListNotations.

Local Open Scope Q_scope.

(** ** Python numerics *)

Module Py.

(** [x < y] and [x <= y] as the booleans Python computes. *)
Definition ltb (x y : Q) : bool := negb (Qle_bool y x).
Definition leb (x y : Q) : bool := Qle_bool x y.
Definition eqb (x y : Q) : bool := Qeq_bool x y.

(** [min(a, b)]: the first argument unless the second is strictly smaller. *)
Definition min (a b : Q) : Q := if ltb b a then b else a.

(** [max(a, b)]: the first argument unless the second is strictly larger. *)
Definition max (a b : Q) : Q := if ltb a b then b else a.

(** [x % m] for a positive [m]: the result takes the sign of the divisor. *)
Definition mod_ (x m : Q) : Q := x - m * inject_Z (Qfloor (x / m)).

(** [round(x)]: to the nearest integer, ties to the even one. *)
Definition round (x : Q) : Z :=
  let f := Qfloor x in
  match Qcompare (x - inject_Z f) (1 # 2) with
  | Lt => f
  | Gt => (f + 1)%Z
  | Eq => if Z.even f then f else (f + 1)%Z
  end.

(** [round(x, 1)]: to one decimal place, ties to even. *)
Definition round1 (x : Q) : Q := inject_Z (round (x * 10)) / 10.

(** [sum(l)]: starts from 0 and adds from the left. *)
Definition sum (l : list Q) : Q := fold_left Qplus l 0.

(** [l[6:] + l[:6]] is written with [skipn] and [firstn] where it is used. *)

(** [int(np.argmax(l))], [int(np.argmin(l))]: index of the first occurrence of
    the largest (smallest) element; 0 on the empty list, which the handler
    never passes. *)
Fixpoint arg_best (better : Q -> Q -> bool) (l : list Q)
         (i : nat) (best : Q) (best_i : nat) : nat :=
  match l with
  | [] => best_i
  | x :: t => if better x best then arg_best better t (S i) x i
              else arg_best better t (S i) best best_i
  end.

Definition argmax (l : list Q) : nat :=
  match l with [] => 0%nat | x :: t => arg_best (fun a b => ltb b a) t 1 x 0 end.

Definition argmin (l : list Q) : nat :=
  match l with [] => 0%nat | x :: t => arg_best ltb t 1 x 0 end.

(** [str(n)] for an integer. *)
Definition str_int (n : Z) : string := NilZero.string_of_int (Z.to_int n).

(** [f"{x:.0f}"]: nearest integer, ties to even; a negative [x] keeps its
    sign even when it rounds to zero. *)
Definition fmt0 (x : Q) : string :=
  ((if ltb x 0 then "-" else "") ++ str_int (round (Qabs x)))%string.

(** [f"{x:.1f}"]: one decimal, ties to even, sign as for [fmt0]. *)
Definition fmt1 (x : Q) : string :=
  let r := round (Qabs x * 10) in
  ((if ltb x 0 then "-" else "")
     ++ str_int (r / 10) ++ "." ++ str_int (r mod 10))%string.

(** [s.lower()] on ASCII text. *)
Definition lower_ascii (c : ascii) : ascii :=
  let n := nat_of_ascii c in
  if (65 <=? n)%nat && (n <=? 90)%nat then ascii_of_nat (n + 32) else c.

Fixpoint lower (s : string) : string :=
  match s with
  | EmptyString => EmptyString
  | String c t => String (lower_ascii c) (lower t)
  end.

End Py.

(** ** Positioning and irradiance estimators *)

(** Lines 167-171 of [get_solar_data]: the tilt before it is rounded for the
    response. *)
Definition optimal_tilt_of (lat : Q) : Q :=
  let optimal_tilt := Py.min (Qabs lat) 35.0 in
  if Py.leb optimal_tilt 25 then optimal_tilt + 2
  else if Py.ltb 50 optimal_tilt then optimal_tilt - 3
  else optimal_tilt.

(** Line 172. *)
Definition optimal_azimuth_of (lat : Q) : Q :=
  if Py.leb 0 lat then 180.0 else 0.0.

(** The monsoon rectangle, tested in both irradiance helpers. *)
Definition is_monsoon_region (lat_abs longitude : Q) : bool :=
  (Py.leb 8 lat_abs && Py.leb lat_abs 37) &&
  (Py.leb 68 longitude && Py.leb longitude 97).

(** Lines 88-105 of [_calculate_realistic_annual_poa]: the value of
    [base_poa] when the tilt penalty is computed. *)
Definition base_poa_of (latitude longitude : Q) : Q :=
  let lat_abs := Qabs latitude in
  let base_poa :=
    if Py.ltb lat_abs 10 then 1900.0
    else if Py.ltb lat_abs 20 then 1750.0
    else if Py.ltb lat_abs 30 then 1800.0
    else if Py.ltb lat_abs 45 then 1500.0
    else if Py.ltb lat_abs 60 then 1200.0
    else 800.0 in
  if is_monsoon_region lat_abs longitude then
    if Py.ltb longitude 77 || Py.ltb 92 longitude
    then base_poa * 0.85
    else base_poa * 0.90
  else base_poa.

(** Lines 106-108: the tilt penalty. *)
Definition tilt_penalty_of (latitude tilt : Q) : Q :=
  let lat_abs := Qabs latitude in
  let optimal_tilt := Py.min lat_abs 35.0 in
  let tilt_diff := Qabs (tilt - optimal_tilt) in
  Py.max 0.75 (1.0 - 0.01 * tilt_diff).

Definition _calculate_realistic_annual_poa (latitude longitude tilt : Q) : Q :=
  base_poa_of latitude longitude * tilt_penalty_of latitude tilt.

(** The three seasonal templates and the monsoon one (lines 115-122). *)
Definition monsoon_factors : list Q :=
  [0.90; 0.85; 1.05; 1.10; 1.05; 0.60; 0.50; 0.55; 0.70; 0.95; 0.90; 0.90].
Definition tropical_factors : list Q :=
  [0.84; 0.86; 0.89; 0.88; 0.85; 0.78; 0.80; 0.83; 0.85; 0.87; 0.87; 0.85].
Definition temperate_factors : list Q :=
  [0.63; 0.71; 0.84; 0.95; 1.06; 1.08; 1.09; 1.03; 0.88; 0.76; 0.62; 0.55].
Definition polar_factors : list Q :=
  [0.35; 0.55; 0.82; 1.08; 1.28; 1.35; 1.33; 1.15; 0.88; 0.65; 0.40; 0.26].

(** Lines 112-122: the template chosen before the hemisphere is looked at. *)
Definition template_of (latitude longitude : Q) : list Q :=
  let lat_abs := Qabs latitude in
  if is_monsoon_region lat_abs longitude then monsoon_factors
  else if Py.ltb lat_abs 23.5 then tropical_factors
  else if Py.ltb lat_abs 45 then temperate_factors
  else polar_factors.

(** Lines 112-124: [monthly_factors] as the distribution uses it. *)
Definition monthly_factors_of (latitude longitude : Q) : list Q :=
  let monthly_factors := template_of latitude longitude in
  if Py.ltb latitude 0
  then skipn 6 monthly_factors ++ firstn 6 monthly_factors
  else monthly_factors.

Definition _calculate_monthly_distribution
           (latitude longitude annual_total : Q) : list Q :=
  let monthly_factors := monthly_factors_of latitude longitude in
  let total_factor := Py.sum monthly_factors in
  let monthly_fractions := map (fun f => f / total_factor) monthly_factors in
  let monthly_values := map (fun frac => annual_total * frac) monthly_fractions in
  let actual_sum := Py.sum monthly_values in
  if Py.ltb 0 actual_sum then
    let scale := annual_total / actual_sum in
    map (fun v => v * scale) monthly_values
  else monthly_values.

Definition _get_direction_name (azimuth : Q) : string :=
  let az := Py.mod_ azimuth 360 in
  if Py.ltb az 22.5 || Py.leb 337.5 az then "North"
  else if Py.ltb az 67.5 then "North-East"
  else if Py.ltb az 112.5 then "East"
  else if Py.ltb az 157.5 then "South-East"
  else if Py.ltb az 202.5 then "South"
  else if Py.ltb az 247.5 then "South-West"
  else if Py.ltb az 292.5 then "West"
  else if Py.ltb az 337.5 then "North-West"
  else "North".

(** ** The weather collaborator *)

(** A decoded JSON document, as [response.json()] returns it.  Numbers are
    the finite ones; an object keeps its members in document order. *)
#[local] Set Warnings "-register-all".
Inductive json : Type :=
| JNull
| JBool (b : bool)
| JNum (q : Q)
| JStr (s : string)
| JArr (items : list json)
| JObj (members : list (string * json)).

(** What the single outbound call of [get_weather_data] can do.  A 2xx
    answer whose body is not JSON is left out: whether the exception it
    raises is a [RequestException] depends on the version of [requests]. *)
Inductive fetch : Type :=
| TransportError            (* [requests.get] raises: no connection, timeout *)
| BadStatus                 (* [raise_for_status] raises [HTTPError] *)
| Body (data : json).       (* a 2xx answer whose body decodes to [data] *)

(** Exceptions that are not [RequestException]s. *)
Inductive exn : Type := TypeError | AttributeError.

Inductive result (A : Type) : Type :=
| Returned (a : A)
| Raised (e : exn).
Arguments Returned {A} a.
Arguments Raised {A} e.

Definition bind {A B : Type} (m : result A) (k : A -> result B) : result B :=
  match m with
  | Returned a => k a
  | Raised e => Raised e
  end.

Notation "x <- m ;; k" := (bind m (fun x => k))
  (at level 61, m at next level, right associativity).

Module Json.

(** Truth value of a decoded document: [None], [False], zero and the empty
    string, list and dict are false. *)
Definition truthy (v : json) : bool :=
  match v with
  | JNull => false
  | JBool b => b
  | JNum q => negb (Py.eqb q 0)
  | JStr s => negb (String.eqb s ""%string)
  | JArr items => match items with [] => false | _ => true end
  | JObj members => match members with [] => false | _ => true end
  end.

(** A decoded object keeps the last of several members with one name. *)
Fixpoint lookup (key : string) (members : list (string * json)) : option json :=
  match members with
  | [] => None
  | (k, v) :: rest =>
      match lookup key rest with
      | Some w => Some w
      | None => if String.eqb k key then Some v else None
      end
  end.

(** [v.get(key, default)]: only a dict has [get]. *)
Definition get (v : json) (key : string) (default : json) : result json :=
  match v with
  | JObj members =>
      Returned (match lookup key members with Some w => w | None => default end)
  | _ => Raised AttributeError
  end.

(** [v == n] for an integer literal [n]; [True] and [False] count as 1, 0. *)
Definition eq_int (v : json) (n : Z) : bool :=
  match v with
  | JNum q => Py.eqb q (inject_Z n)
  | JBool b => Py.eqb (if b then 1 else 0) (inject_Z n)
  | _ => false
  end.

(** [v in [n1, n2, ...]]. *)
Definition in_ints (v : json) (ns : list Z) : bool := existsb (eq_int v) ns.

(** [round(v, 1)] and [round(v)]: numbers and booleans only. *)
Definition round1 (v : json) : result Q :=
  match v with
  | JNum q => Returned (Py.round1 q)
  | JBool b => Returned (if b then 1 else 0)
  | _ => Raised TypeError
  end.

Definition round (v : json) : result Z :=
  match v with
  | JNum q => Returned (Py.round q)
  | JBool b => Returned (if b then 1 else 0)%Z
  | _ => Raised TypeError
  end.

End Json.

(** The dict [get_weather_data] returns. *)
Record weather : Type := {
  temperature : Q;
  humidity : Z;
  cloud_cover : Z;
  weather_description : string;
  wind_speed : Q;
  visibility : Q;
  weather_icon : string;
  raw_data : json
}.

Definition _get_weather_description_and_icon (wmo_code is_day : json)
  : string * string :=
  let day_night := (if Json.eq_int is_day 1 then "d" else "n")%string in
  (if Json.eq_int wmo_code 0 then ("Clear sky", "01" ++ day_night)
  else if Json.in_ints wmo_code [1; 2; 3]%Z then ("Partly cloudy", "02" ++ day_night)
  else if Json.in_ints wmo_code [45; 48]%Z then ("Fog", "50d")
  else if Json.in_ints wmo_code [51; 53; 55; 56; 57]%Z then ("Drizzle", "09" ++ day_night)
  else if Json.in_ints wmo_code [61; 63; 65; 66; 67]%Z then ("Rain", "10" ++ day_night)
  else if Json.in_ints wmo_code [71; 73; 75; 77]%Z then ("Snow", "13" ++ day_night)
  else if Json.in_ints wmo_code [80; 81; 82; 85; 86]%Z then ("Rain showers", "09" ++ day_night)
  else if Json.in_ints wmo_code [95; 96; 99]%Z then ("Thunderstorm", "11" ++ day_night)
  else ("Unknown", "01" ++ day_night))%string.

(** [get_weather_data(lat, lng)] once the outbound call has done [net].  The
    [except] clause turns a [RequestException] into [None]; any other
    exception leaves the function. *)
Definition get_weather_data (lat lng : Q) (net : fetch) : result (option weather) :=
  match net with
  | TransportError => Returned None
  | BadStatus => Returned None
  | Body data =>
      current <- Json.get data "current"%string (JObj []) ;;
      if negb (Json.truthy current) then Returned None
      else
        wmo_code <- Json.get current "weather_code"%string (JNum 0) ;;
        is_day <- Json.get current "is_day"%string (JNum 1) ;;
        let (description, icon) := _get_weather_description_and_icon wmo_code is_day in
        t <- (v <- Json.get current "temperature_2m"%string JNull ;; Json.round1 v) ;;
        h <- (v <- Json.get current "relative_humidity_2m"%string JNull ;; Json.round v) ;;
        c <- (v <- Json.get current "cloud_cover"%string JNull ;; Json.round v) ;;
        w <- (v <- Json.get current "wind_speed_10m"%string JNull ;; Json.round1 v) ;;
        Returned (Some {|
          temperature := t;
          humidity := h;
          cloud_cover := c;
          weather_description := description;
          wind_speed := w;
          visibility := 10.0;
          weather_icon := icon;
          raw_data := data |})
  end.

(** ** The request handler *)

(** The validated request.  Pydantic has already checked latitude in
    [-90,90] and longitude in [-180,180]; none of the properties below needs
    the bounds. *)
Record SolarRequest : Type := {
  latitude : Q;
  longitude : Q;
  include_weather : option bool
}.

(** The record the handler returns; fields named after the response keys. *)
Record report : Type := {
  r_latitude : Q;
  r_longitude : Q;
  r_optimal_tilt : Q;
  r_optimal_azimuth : Q;
  r_annual_irradiance : Q;
  r_efficiency_gain : Q;
  r_monthly_data : list (string * Q);
  r_peak_month : string;
  r_low_month : string;
  r_tips : list string;
  r_summary_text : string;
  r_orientation_text : string;
  r_weather_adjusted : option bool;
  r_weather_data : option weather
}.

Inductive http_response : Type :=
| Ok200 (body : report)
| Error500 (e : exn).

Definition months_abbr : list string :=
  ["Jan"; "Feb"; "Mar"; "Apr"; "May"; "Jun";
   "Jul"; "Aug"; "Sep"; "Oct"; "Nov"; "Dec"]%string.

Definition months_full : list string :=
  ["January"; "February"; "March"; "April"; "May"; "June";
   "July"; "August"; "September"; "October"; "November"; "December"]%string.

(** Lines 181-184: the two figures after the weather adjustment. *)
Definition cloud_penalty_of (w : weather) : Q :=
  (inject_Z (cloud_cover w) / 100) * 0.3.

Definition humidity_penalty_of (w : weather) : Q :=
  Py.max 0 ((inject_Z (humidity w) - 60) / 100) * 0.1.

Definition weather_adjusted_efficiency_of
           (efficiency_gain : Q) (weather_data : option weather) : Q :=
  match weather_data with
  | Some w =>
      efficiency_gain * (1 - cloud_penalty_of w - humidity_penalty_of w)
  | None => efficiency_gain
  end.

Definition weather_adjusted_poa_of
           (annual_poa : Q) (weather_data : option weather) : Q :=
  match weather_data with
  | Some w => annual_poa * (1 - cloud_penalty_of w * 0.5)
  | None => annual_poa
  end.

(** The tips the handler inserts around the fixed ones. *)
Definition cloud_cover_tip (cc : Z) : string :=
  ("High cloud cover (" ++ Py.str_int cc ++ "%) may reduce current efficiency")%string.

Definition humidity_tip : string :=
  "High humidity - ensure proper ventilation around panels"%string.

Definition tilt_tip (optimal_tilt : Q) : string :=
  ("Optimal tilt angle of " ++ Py.fmt1 optimal_tilt
     ++ "¬∞ is ideal for your latitude")%string.

(** Lines 209-230: the list [tips] before it is cut to six entries. *)
Definition tips_of (lat optimal_tilt : Q) (weather_data : option weather)
  : list string :=
  let abs_lat := Qabs lat in
  let tips :=
    if Py.ltb abs_lat 23.5 then
      ["Your tropical location receives consistent solar irradiance year-round";
       "Consider tracking systems for maximum efficiency due to high sun angles"]%string
    else if Py.ltb abs_lat 40 then
      ["Seasonal adjustment of tilt angle can increase annual energy yield by 3-5%";
       "Consider east-west orientation to reduce afternoon overheating"]%string
    else
      ["Winter conditions may impact performance - ensure easy cleaning access";
       "Consider higher mounting to maximize winter sun exposure"]%string in
  let tips := tips ++
      ["Regular cleaning improves efficiency by 2-5%"%string;
       "Avoid shading between 10 AM - 2 PM for optimal performance"%string;
       tilt_tip optimal_tilt] in
  match weather_data with
  | Some w =>
      let tips :=
        if (70 <? cloud_cover w)%Z
        then cloud_cover_tip (cloud_cover w) :: tips
        else tips in
      if (80 <? humidity w)%Z then tips ++ [humidity_tip] else tips
  | None => tips
  end.

(** The body of [get_solar_data] from the point where [weather_data] is
    known (lines 165-247, the [await] of line 179 taken out). *)
Definition build_report (request : SolarRequest) (weather_data : option weather)
  : report :=
  let lat := latitude request in
  let lng := longitude request in
  let optimal_tilt := optimal_tilt_of lat in
  let optimal_azimuth := optimal_azimuth_of lat in
  let annual_poa := _calculate_realistic_annual_poa lat lng optimal_tilt in
  let efficiency_gain := Py.min 25 (5 + Qabs lat * 0.3) in
  let weather_adjusted_efficiency :=
    weather_adjusted_efficiency_of efficiency_gain weather_data in
  let weather_adjusted_poa := weather_adjusted_poa_of annual_poa weather_data in
  let monthly_values := _calculate_monthly_distribution lat lng weather_adjusted_poa in
  let monthly_data :=
    map (fun i => (nth i months_abbr ""%string, Py.round1 (nth i monthly_values 0)))
        (seq 0 12) in
  let max_idx := Py.argmax monthly_values in
  let min_idx := Py.argmin monthly_values in
  let direction := _get_direction_name optimal_azimuth in
  let summary_text :=
    ("The solar array is optimally positioned at a " ++ Py.fmt1 optimal_tilt
      ++ "¬∞ tilt angle, facing " ++ Py.lower direction
      ++ " (azimuth " ++ Py.str_int (Py.round optimal_azimuth) ++ "¬∞). "
      ++ "This configuration maximizes solar energy capture, delivering an estimated "
      ++ Py.str_int (Py.round weather_adjusted_poa) ++ " "
      ++ "kilowatt-hours per square meter annually. "
      ++ "Peak production occurs in " ++ nth max_idx months_full ""
      ++ " (" ++ Py.fmt0 (nth max_idx monthly_values 0) ++ " kWh/m¬≤), "
      ++ "while " ++ nth min_idx months_full "" ++ " shows the lowest output ("
      ++ Py.fmt0 (nth min_idx monthly_values 0) ++ " kWh/m¬≤).")%string in
  let tips := tips_of lat optimal_tilt weather_data in
  {| r_latitude := lat;
     r_longitude := lng;
     r_optimal_tilt := Py.round1 optimal_tilt;
     r_optimal_azimuth := Py.round1 optimal_azimuth;
     r_annual_irradiance := Py.round1 weather_adjusted_poa;
     r_efficiency_gain := Py.round1 weather_adjusted_efficiency;
     r_monthly_data := monthly_data;
     r_peak_month := nth max_idx months_full ""%string;
     r_low_month := nth min_idx months_full ""%string;
     r_tips := firstn 6 tips;
     r_summary_text := summary_text;
     r_orientation_text :=
       ("Face panels toward " ++ direction ++ " ("
         ++ Py.str_int (Py.round optimal_azimuth) ++ "¬∞) at "
         ++ Py.fmt1 optimal_tilt ++ "¬∞ tilt")%string;
     r_weather_adjusted := include_weather request;
     r_weather_data := weather_data |}.

(** [if request.include_weather:] on an [Optional[bool]]. *)
Definition wants_weather (request : SolarRequest) : bool :=
  match include_weather request with Some true => true | _ => false end.

(** [POST /api/solar-data]: the handler, [net] being what the outbound call
    does if it is made.  The outer [except Exception] answers 500. *)
Definition get_solar_data (request : SolarRequest) (net : fetch) : http_response :=
  let fetched :=
    if wants_weather request
    then get_weather_data (latitude request) (longitude request) net
    else Returned None in
  match fetched with
  | Returned weather_data => Ok200 (build_report request weather_data)
  | Raised e => Error500 e
  end.

(** * The router pipeline: [routes/solar_routes.py]

    The second handler of the repository, with the calculator of
    [utils/solar_calculations.py] and the simulated weather of
    [utils/weather_service.py] it calls. *)

(** ** [WeatherService] *)

Module Service.

(** The dict [WeatherService.get_weather_data] builds; a key that a dict may
    lack is an optional field. *)
Record weather_dict : Type := {
  w_cloud_cover : option Q;
  w_temperature : option Q;
  w_high_humidity : option bool;
  w_high_wind : option bool
}.

(** [get_weather_data(latitude, longitude)]: simulated by latitude band.
    Nothing in the body raises, so the [except] branch that returns [None]
    is never taken. *)
Definition get_weather_data (latitude longitude : Q) : option weather_dict :=
  let abs_lat := Qabs latitude in
  let weather_data :=
    if Py.ltb abs_lat 30 then
      {| w_cloud_cover := Some 0.4; w_temperature := Some 28;
         w_high_humidity := Some true; w_high_wind := Some false |}
    else if Py.ltb abs_lat 50 then
      {| w_cloud_cover := Some 0.5; w_temperature := Some 15;
         w_high_humidity := Some false; w_high_wind := Some false |}
    else
      {| w_cloud_cover := Some 0.6; w_temperature := Some 5;
         w_high_humidity := Some false; w_high_wind := Some true |} in
  Some weather_data.

End Service.

(** ** [SolarCalculator] *)

Module Calc.

(** An entry of [monthly_data]; [temperature] is the key
    [combine_solar_weather_data] may add. *)
Record month_entry : Type := {
  m_month : string;
  m_value : Q;
  m_irradiance : Q;
  m_temperature : option Q
}.

(** The dict [calculate_optimal_positioning] returns. *)
Record solar_data : Type := {
  s_latitude : Q;
  s_longitude : Q;
  s_optimal_tilt : Q;
  s_optimal_azimuth : Q;
  s_annual_irradiance : Q;
  s_efficiency_gain : Q;
  s_monthly_data : list month_entry;
  s_tips : list string;
  s_weather_adjusted : bool
}.

Definition months : list string :=
  ["Jan"; "Feb"; "Mar"; "Apr"; "May"; "Jun";
   "Jul"; "Aug"; "Sep"; "Oct"; "Nov"; "Dec"]%string.

Definition _calculate_optimal_tilt (latitude : Q) : Q :=
  let abs_lat := Qabs latitude in
  if Py.leb abs_lat 25 then abs_lat + 5
  else if Py.leb abs_lat 50 then abs_lat
  else abs_lat - 5.

Definition _calculate_optimal_azimuth (latitude : Q) : Q :=
  if Py.leb 0 latitude then 180.0 else 0.0.

Definition _calculate_annual_irradiance (latitude longitude : Q) : Q :=
  let abs_lat := Qabs latitude in
  let base_irradiance := 2000 - (abs_lat * 15) in
  let climate_factor :=
    if Py.leb 23.5 abs_lat && Py.leb abs_lat 35 then 1.1
    else if Py.leb abs_lat 23.5 then 1.2
    else if Py.ltb 35 abs_lat && Py.leb abs_lat 60 then 0.9
    else 0.7 in
  Py.max 800 (base_irradiance * climate_factor).

Definition northern_seasonal_factors : list Q :=
  [0.6; 0.7; 0.85; 1.0; 1.15; 1.2; 1.2; 1.1; 0.95; 0.8; 0.65; 0.55].
Definition southern_seasonal_factors : list Q :=
  [1.2; 1.15; 1.0; 0.85; 0.7; 0.6; 0.55; 0.65; 0.8; 0.95; 1.1; 1.2].

Definition seasonal_factors_of (latitude : Q) : list Q :=
  if Py.leb 0 latitude then northern_seasonal_factors
  else southern_seasonal_factors.

(** [monthly_value] of the loop at index [i], before it is rounded. *)
Definition monthly_value (latitude longitude : Q) (i : nat) : Q :=
  let annual_irradiance := _calculate_annual_irradiance latitude longitude in
  (annual_irradiance / 12) * nth i (seasonal_factors_of latitude) 0.

Definition _calculate_monthly_irradiance (latitude longitude tilt : Q)
  : list month_entry :=
  map (fun i =>
         let monthly_value := monthly_value latitude longitude i in
         {| m_month := nth i months ""%string;
            m_value := Py.round1 monthly_value;
            m_irradiance := Py.round1 monthly_value;
            m_temperature := None |})
      (seq 0 (List.length months)).

Definition _calculate_efficiency_gain (latitude optimal_tilt : Q) : Q :=
  let abs_lat := Qabs latitude in
  let base_gain :=
    if Py.leb abs_lat 15 then 8
    else if Py.leb abs_lat 30 then 12
    else if Py.leb abs_lat 45 then 18
    else 25 in
  let tilt_factor := Py.min 1.0 (optimal_tilt / 45) in
  let tilt_gain := base_gain * tilt_factor in
  Py.min 35 (base_gain + tilt_gain * 0.3).

Section Tips.

(** [str(x)] of a float, as the f-strings of the tips print the tilt: the
    shortest decimal that reads back as the same binary64 number, which the
    rational model does not determine. *)
Variable float_str : Q -> string.

Definition steep_tip (tilt : Q) : string :=
  ("Steep tilt angle (" ++ float_str tilt
     ++ "°) is optimal for your latitude - helps with snow shedding and seasonal sun angles")%string.

Definition low_tip (tilt : Q) : string :=
  ("Low tilt angle (" ++ float_str tilt
     ++ "°) reduces wind loads and is easier to install")%string.

Definition _generate_optimization_tips (latitude tilt azimuth : Q)
  : list string :=
  let abs_lat := Qabs latitude in
  let tips :=
    if Py.ltb 30 tilt then [steep_tip tilt]
    else if Py.ltb tilt 15 then [low_tip tilt]
    else [] in
  let tips := tips ++
    (if Py.ltb abs_lat 23.5 then
       ["Your tropical location receives consistent solar irradiance year-round";
        "Consider tracking systems for maximum efficiency due to high sun angles"]%string
     else if Py.ltb abs_lat 40 then
       ["Seasonal adjustment of tilt angle can increase annual energy yield by 3-5%";
        "Consider east-west orientation to reduce afternoon overheating"]%string
     else
       ["Winter snow can significantly impact performance - ensure easy cleaning access";
        "Consider higher mounting to maximize winter sun exposure"]%string) in
  let tips := tips ++
    ["Regular cleaning improves efficiency by 2-5%";
     "Avoid shading between 10 AM - 2 PM for optimal performance"]%string in
  if (5 <? List.length tips)%nat then firstn 5 tips else tips.

Definition calculate_optimal_positioning (latitude longitude : Q) : solar_data :=
  let optimal_tilt := _calculate_optimal_tilt latitude in
  let optimal_azimuth := _calculate_optimal_azimuth latitude in
  let annual_irradiance := _calculate_annual_irradiance latitude longitude in
  let monthly_data := _calculate_monthly_irradiance latitude longitude optimal_tilt in
  let efficiency_gain := _calculate_efficiency_gain latitude optimal_tilt in
  let tips := _generate_optimization_tips latitude optimal_tilt optimal_azimuth in
  {| s_latitude := latitude;
     s_longitude := longitude;
     s_optimal_tilt := Py.round1 optimal_tilt;
     s_optimal_azimuth := Py.round1 optimal_azimuth;
     s_annual_irradiance := Py.round1 annual_irradiance;
     s_efficiency_gain := Py.round1 efficiency_gain;
     s_monthly_data := monthly_data;
     s_tips := tips;
     s_weather_adjusted := false |}.

End Tips.

Definition wind_tip : string :=
  "High wind area detected - ensure robust mounting systems"%string.
Definition corrosion_tip : string :=
  "High humidity area - use corrosion-resistant components"%string.

(** [weather_data.get(key, False)] used as a condition. *)
Definition flag_set (flag : option bool) : bool :=
  match flag with Some true => true | _ => false end.

(** [combine_solar_weather_data]: the dict is updated in place and returned;
    the record returned here is its final state. *)
Definition combine_solar_weather_data
           (data : solar_data) (weather_data : option Service.weather_dict)
  : solar_data :=
  match weather_data with
  | None => data
  | Some wd =>
      let '(annual_irradiance, monthly_data) :=
        match Service.w_cloud_cover wd with
        | Some cloud_cover =>
            let cloud_factor := 1.0 - (cloud_cover * 0.3) in
            (s_annual_irradiance data * cloud_factor,
             map (fun month_data =>
                    {| m_month := m_month month_data;
                       m_value := m_value month_data * cloud_factor;
                       m_irradiance := m_irradiance month_data * cloud_factor;
                       m_temperature :=
                         match Service.w_temperature wd with
                         | Some t => Some t
                         | None => m_temperature month_data
                         end |})
                 (s_monthly_data data))
        | None => (s_annual_irradiance data, s_monthly_data data)
        end in
      let tips := s_tips data in
      let tips := if flag_set (Service.w_high_wind wd)
                  then tips ++ [wind_tip] else tips in
      let tips := if flag_set (Service.w_high_humidity wd)
                  then tips ++ [corrosion_tip] else tips in
      {| s_latitude := s_latitude data;
         s_longitude := s_longitude data;
         s_optimal_tilt := s_optimal_tilt data;
         s_optimal_azimuth := s_optimal_azimuth data;
         s_annual_irradiance := annual_irradiance;
         s_efficiency_gain := s_efficiency_gain data;
         s_monthly_data := monthly_data;
         s_tips := tips;
         s_weather_adjusted := true |}
  end.

End Calc.

(** ** The routes *)

Module Routes.

(** [LocationRequest]: no bounds are declared on the model. *)
Record LocationRequest : Type := {
  latitude : Q;
  longitude : Q;
  include_weather : option bool
}.

(** The answers of the route: 400 with its detail, or the response model
    built from the combined dict.  Nothing on the modelled path raises
    another exception. *)
Inductive answer : Type :=
| Ok200 (body : Calc.solar_data)
| Error400 (detail : string).

Section Handler.

Variable float_str : Q -> string.

Definition get_solar_data (request : LocationRequest) : answer :=
  if negb (Py.leb (-90) (latitude request) && Py.leb (latitude request) 90)
  then Error400 "Invalid latitude. Must be between -90 and 90."
  else if negb (Py.leb (-180) (longitude request)
                && Py.leb (longitude request) 180)
  then Error400 "Invalid longitude. Must be between -180 and 180."
  else
    let solar_data :=
      Calc.calculate_optimal_positioning float_str
        (latitude request) (longitude request) in
    let weather_data :=
      match include_weather request with
      | Some true =>
          Service.get_weather_data (latitude request) (longitude request)
      | _ => None
      end in
    Ok200 (Calc.combine_solar_weather_data solar_data weather_data).

(** [GET /solar-data/location/{lat}/{lng}]. *)
Definition get_solar_data_by_coords (lat lng : Q) (include_weather : bool)
  : answer :=
  get_solar_data {| latitude := lat; longitude := lng;
                    include_weather := Some include_weather |}.

End Handler.

End Routes.

(** * Reference definitions

    What the specification says, written independently of the code above,
    and the sample data the properties are tried on. *)

(** ** Tilt *)

(** The tilt the specification asks for. *)
Definition spec_tilt (lat : Q) : Q :=
  let m := Qmin (Qabs lat) 35 in
  m + (if Qlt_le_dec 25 m then 0 else 2).

(** ** Annual irradiance *)

(** The band table of the specification, read top to bottom: an upper bound
    on |latitude| and the base it selects. *)
Definition poa_bands : list (Q * Q) :=
  [(10, 1900); (20, 1750); (30, 1800); (45, 1500); (60, 1200)].

Fixpoint band_lookup (bands : list (Q * Q)) (otherwise a : Q) : Q :=
  match bands with
  | [] => otherwise
  | (bound, v) :: rest =>
      if Qlt_le_dec a bound then v else band_lookup rest otherwise a
  end.

Definition within (lo hi x : Q) : bool :=
  if Qlt_le_dec x lo then false else if Qlt_le_dec hi x then false else true.

(** The regional multiplier of the specification; 1 outside the rectangle. *)
Definition regional_factor (lat_abs lng : Q) : Q :=
  if within 8 37 lat_abs && within 68 97 lng then
    if within 77 92 lng then 0.90 else 0.85
  else 1.

(** ** Monthly template *)

(** Rotation by six months. *)
Definition rotate6 (l : list Q) : list Q := skipn 6 l ++ firstn 6 l.

(** ** Peak and low month *)

(** The calendar months of the largest and the smallest weight of the
    template in use north of the equator. *)
Definition northern_peak_low (lat_abs lng : Q) : string * string :=
  (if within 8 37 lat_abs && within 68 97 lng then ("April", "July")
   else if Qlt_le_dec lat_abs 23.5 then ("March", "June")
   else if Qlt_le_dec lat_abs 45 then ("July", "December")
   else ("June", "December"))%string.

(** ** Compass *)

(** The eight compass points, clockwise from north, and the bin of an
    azimuth: 45 degrees wide, centred on the point, closed on the left. *)
Definition compass : list string :=
  ["North"; "North-East"; "East"; "South-East";
   "South"; "South-West"; "West"; "North-West"]%string.

Definition compass_bin (azimuth : Q) : string :=
  nth (Z.to_nat (Qfloor ((azimuth + 22.5) / 45) mod 8)) compass ""%string.

(** ** Weather answers *)

(** The failures [get_weather_data] absorbs: a transport error, a non-2xx
    status, and a decoded object whose [current] member is absent or empty. *)
Inductive absorbed : fetch -> Prop :=
| absorbed_transport : absorbed TransportError
| absorbed_status : absorbed BadStatus
| absorbed_no_current members :
    Json.lookup "current" members = None -> absorbed (Body (JObj members))
| absorbed_empty_current members current :
    Json.lookup "current" members = Some current ->
    Json.truthy current = false -> absorbed (Body (JObj members)).

(** A decoded body the handler can digest: an object whose [current] member
    is absent, falsy, or an object giving the four measurements as numbers
    (or booleans). *)
Definition numeric (v : json) : bool :=
  match v with JNum _ | JBool _ => true | _ => false end.

Definition measurement_keys : list string :=
  ["temperature_2m"; "relative_humidity_2m"; "cloud_cover"; "wind_speed_10m"]%string.

Definition has_measurements (current : json) : bool :=
  match current with
  | JObj members =>
      forallb (fun key => match Json.lookup key members with
                          | Some v => numeric v
                          | None => false
                          end) measurement_keys
  | _ => false
  end.

Definition digestible (data : json) : bool :=
  match data with
  | JObj members =>
      match Json.lookup "current" members with
      | Some current => negb (Json.truthy current) || has_measurements current
      | None => true
      end
  | _ => false
  end.

(** The WMO codes the description table names. *)
Definition known_wmo_codes : list Z :=
  [0; 1; 2; 3; 45; 48; 51; 53; 55; 56; 57; 61; 63; 65; 66; 67;
   71; 73; 75; 77; 80; 81; 82; 85; 86; 95; 96; 99]%Z.

(** The weather service reports cloud cover as a percentage. *)
Definition cloud_cover_is_percentage (weather_data : option weather) : Prop :=
  match weather_data with
  | Some w => (0 <= cloud_cover w <= 100)%Z
  | None => True
  end.

(** A 2xx body that carries a complete [current] block. *)
Definition sample_body : json :=
  JObj [("current",
         JObj [("temperature_2m", JNum 21.34);
               ("relative_humidity_2m", JNum 85);
               ("is_day", JNum 1);
               ("weather_code", JNum 3);
               ("cloud_cover", JNum 90);
               ("wind_speed_10m", JNum 3.25)])]%string.

Definition sample_request : SolarRequest :=
  {| latitude := 28.6; longitude := 77.2; include_weather := Some true |}.

Definition sample_weather : weather :=
  {| temperature := 21.3; humidity := 85; cloud_cover := 90;
     weather_description := "Partly cloudy"; wind_speed := 3.2;
     visibility := 10.0; weather_icon := "02d"; raw_data := sample_body |}.

(** A 2xx body whose [current] block is present but reports no temperature. *)
Definition degraded_body : json :=
  JObj [("current",
         JObj [("temperature_2m", JNull);
               ("relative_humidity_2m", JNum 85);
               ("is_day", JNum 1);
               ("weather_code", JNum 3);
               ("cloud_cover", JNum 90);
               ("wind_speed_10m", JNum 3.25)])]%string.

(** * Properties *)

(** ** Sample evaluations *)

Example direction_225 : _get_direction_name 22.5 = "North-East"%string.
Proof. reflexivity. Qed.
Example fmt1_ex : Py.fmt1 30.6 = "30.6"%string /\ Py.fmt1 (1 # 3) = "0.3"%string
                  /\ Py.fmt0 (-(5 # 2)) = "-2"%string /\ Py.round1 12.123 == 12.1.
Proof. repeat split. Qed.

(** ** Comparisons and rounding *)

Section Comparisons.

Lemma ltb_true (x y : Q) : Py.ltb x y = true <-> x < y.
Proof.
  unfold Py.ltb. rewrite negb_true_iff, <- not_true_iff_false, Qle_bool_iff.
  split; [apply Qnot_le_lt | apply Qlt_not_le].
Qed.

Lemma ltb_false (x y : Q) : Py.ltb x y = false <-> y <= x.
Proof.
  unfold Py.ltb. rewrite negb_false_iff. apply Qle_bool_iff.
Qed.

Lemma leb_true (x y : Q) : Py.leb x y = true <-> x <= y.
Proof. apply Qle_bool_iff. Qed.

Lemma leb_false (x y : Q) : Py.leb x y = false <-> y < x.
Proof.
  unfold Py.leb. rewrite <- not_true_iff_false, Qle_bool_iff.
  split; [apply Qnot_le_lt | apply Qlt_not_le].
Qed.

End Comparisons.

(** Splits on the comparisons of the goal, oldest first, and leaves each
    outcome as an inequality among the hypotheses. *)
Ltac split_ltb a b :=
  let E := fresh "E" in
  destruct (Py.ltb a b) eqn:E;
  [apply ltb_true in E | apply ltb_false in E].

Ltac split_leb a b :=
  let E := fresh "E" in
  destruct (Py.leb a b) eqn:E;
  [apply leb_true in E | apply leb_false in E].

Ltac branches :=
  repeat match goal with
         | |- context [Py.ltb ?a ?b] => split_ltb a b
         | |- context [Py.leb ?a ?b] => split_leb a b
         end;
  cbn [andb orb negb].

Lemma min_cases (a b : Q) :
  (a <= b /\ Py.min a b = a) \/ (b < a /\ Py.min a b = b).
Proof. unfold Py.min. branches; auto. Qed.

Lemma max_cases (a b : Q) :
  (b <= a /\ Py.max a b = a) \/ (a < b /\ Py.max a b = b).
Proof. unfold Py.max. branches; auto. Qed.

#[export] Instance round_proper : Proper (Qeq ==> eq) Py.round.
Proof.
  intros x y E. unfold Py.round.
  rewrite (Qfloor_comp _ _ E).
  assert (C : Qcompare (x - inject_Z (Qfloor y)) (1 # 2)
              = Qcompare (y - inject_Z (Qfloor y)) (1 # 2))
    by (rewrite E; reflexivity).
  rewrite C. reflexivity.
Qed.

#[export] Instance round1_proper : Proper (Qeq ==> eq) Py.round1.
Proof.
  intros x y E. unfold Py.round1.
  assert (R : Py.round (x * 10) = Py.round (y * 10))
    by (apply round_proper; rewrite E; reflexivity).
  rewrite R. reflexivity.
Qed.

#[export] Instance ltb_proper : Proper (Qeq ==> Qeq ==> eq) Py.ltb.
Proof. intros x x' Ex y y' Ey. unfold Py.ltb. now rewrite Ex, Ey. Qed.

#[export] Instance leb_proper : Proper (Qeq ==> Qeq ==> eq) Py.leb.
Proof. intros x x' Ex y y' Ey. unfold Py.leb. now rewrite Ex, Ey. Qed.

#[export] Instance min_proper : Proper (Qeq ==> Qeq ==> Qeq) Py.min.
Proof.
  intros x x' Ex y y' Ey. unfold Py.min. rewrite Ex, Ey.
  now destruct (Py.ltb y' x').
Qed.

#[export] Instance max_proper : Proper (Qeq ==> Qeq ==> Qeq) Py.max.
Proof.
  intros x x' Ex y y' Ey. unfold Py.max. rewrite Ex, Ey.
  now destruct (Py.ltb x' y').
Qed.

(** ** The handler answers *)

Lemma get_solar_data_ok (request : SolarRequest) (net : fetch) (r : report) :
  get_solar_data request net = Ok200 r ->
  exists weather_data, r = build_report request weather_data.
Proof.
  unfold get_solar_data.
  destruct (if wants_weather request then _ else _) as [wd | e];
    intros H; inversion H. now exists wd.
Qed.

Lemma get_solar_data_without_weather (request : SolarRequest) (net : fetch) :
  wants_weather request = false ->
  get_solar_data request net = Ok200 (build_report request None).
Proof. unfold get_solar_data. now intros ->. Qed.

(** ** Tilt *)

Lemma py_min_Qmin (a b : Q) : Py.min a b == Qmin a b.
Proof.
  destruct (min_cases a b) as [[H ->] | [H ->]];
    destruct (Q.min_spec a b) as [[H' ->] | [H' ->]]; try reflexivity; lra.
Qed.

Lemma optimal_tilt_of_spec (lat : Q) : optimal_tilt_of lat == spec_tilt lat.
Proof.
  unfold optimal_tilt_of, spec_tilt.
  assert (M : Py.min (Qabs lat) 35.0 == Qmin (Qabs lat) 35).
  { rewrite py_min_Qmin. apply Q.min_compat; reflexivity. }
  pose proof (Q.le_min_r (Qabs lat) 35) as B.
  destruct (Qlt_le_dec 25 (Qmin (Qabs lat) 35)); branches; lra.
Qed.



(** ** Annual irradiance *)

Lemma within_spec (lo hi x : Q) : within lo hi x = true <-> lo <= x <= hi.
Proof.
  unfold within.
  destruct (Qlt_le_dec x lo); [|destruct (Qlt_le_dec hi x)];
    split; intros H; try discriminate; try reflexivity; try (split; lra); lra.
Qed.

Lemma within_false (lo hi x : Q) : within lo hi x = false <-> x < lo \/ hi < x.
Proof.
  unfold within.
  destruct (Qlt_le_dec x lo); [|destruct (Qlt_le_dec hi x)];
    split; intros H; try discriminate; try reflexivity; auto; lra.
Qed.

Ltac split_within :=
  repeat match goal with
         | |- context [within ?lo ?hi ?x] =>
             let E := fresh "E" in
             destruct (within lo hi x) eqn:E;
             [apply within_spec in E | apply within_false in E]
         end;
  cbn [andb orb negb].

Lemma band_selected (a : Q) :
  (if Py.ltb a 10 then 1900.0
   else if Py.ltb a 20 then 1750.0
   else if Py.ltb a 30 then 1800.0
   else if Py.ltb a 45 then 1500.0
   else if Py.ltb a 60 then 1200.0
   else 800.0) == band_lookup poa_bands 800 a.
Proof.
  cbn [band_lookup poa_bands].
  repeat match goal with
         | |- context [Qlt_le_dec ?x ?y] => destruct (Qlt_le_dec x y)
         end; branches; try reflexivity; lra.
Qed.

Lemma region_corrected (a lng b : Q) :
  (if is_monsoon_region a lng then
     if Py.ltb lng 77 || Py.ltb 92 lng then b * 0.85 else b * 0.90
   else b) == b * regional_factor a lng.
Proof.
  unfold is_monsoon_region, regional_factor.
  split_within; branches; try ring; lra.
Qed.

Lemma base_poa_of_table (latitude longitude : Q) :
  base_poa_of latitude longitude
    == band_lookup poa_bands 800 (Qabs latitude)
       * regional_factor (Qabs latitude) longitude.
Proof.
  unfold base_poa_of. cbv zeta.
  rewrite region_corrected, band_selected. reflexivity.
Qed.

(** C3: before the tilt penalty, the annual POA is the base of the |latitude|
    band (<10: 1900, <20: 1750, <30: 1800, <45: 1500, <60: 1200, else 800),
    multiplied inside the rectangle |latitude| in [8,37], longitude in [68,97]
    by 0.85 when longitude < 77 or > 92 and by 0.90 otherwise. *)
Theorem base_poa_by_band (latitude longitude tilt : Q) :
  base_poa_of latitude longitude
    == band_lookup poa_bands 800 (Qabs latitude)
       * regional_factor (Qabs latitude) longitude /\
  _calculate_realistic_annual_poa latitude longitude tilt
    == band_lookup poa_bands 800 (Qabs latitude)
       * regional_factor (Qabs latitude) longitude
       * tilt_penalty_of latitude tilt.
Proof.
  split; [apply base_poa_of_table|].
  unfold _calculate_realistic_annual_poa.
  rewrite base_poa_of_table. reflexivity.
Qed.

(** The penalty the handler's own tilt incurs. *)
Lemma own_tilt_difference (lat : Q) :
  Qabs (optimal_tilt_of lat - Py.min (Qabs lat) 35.0)
    == (if Qlt_le_dec 25 (Qabs lat) then 0 else 2).
Proof.
  unfold optimal_tilt_of.
  destruct (min_cases (Qabs lat) 35.0) as [[H ->] | [H ->]];
    destruct (Qlt_le_dec 25 (Qabs lat)); branches; try lra.
  all: match goal with
       | |- Qabs ?e == ?v => assert (Z : e == v) by ring; rewrite Z; reflexivity
       end.
Qed.

(** C9: when |latitude| <= 25 the handler's tilt is 2 away from
    min(|latitude|,35), the tilt penalty is 0.98 and the annual irradiance is
    the corrected band base times 0.98; when |latitude| > 25 the penalty is 1;
    at latitude 0, longitude 0 the annual irradiance is 1862. *)
Theorem own_tilt_penalty (lat lng : Q) :
  let tilt := optimal_tilt_of lat in
  let low := if Qlt_le_dec 25 (Qabs lat) then false else true in
  Qabs (tilt - Qmin (Qabs lat) 35) == (if low then 2 else 0) /\
  tilt_penalty_of lat tilt == (if low then 0.98 else 1) /\
  _calculate_realistic_annual_poa lat lng tilt
    == band_lookup poa_bands 800 (Qabs lat) * regional_factor (Qabs lat) lng
       * (if low then 0.98 else 1) /\
  _calculate_realistic_annual_poa 0 0 (optimal_tilt_of 0) == 1862 /\
  get_solar_data {| latitude := 0; longitude := 0; include_weather := None |} BadStatus
    = Ok200 (build_report
               {| latitude := 0; longitude := 0; include_weather := None |} None) /\
  r_annual_irradiance
    (build_report {| latitude := 0; longitude := 0; include_weather := None |} None)
    == 1862.
Proof.
  intros tilt low.
  pose proof (own_tilt_difference lat) as D. fold tilt in D.
  assert (P : tilt_penalty_of lat tilt == (if low then 0.98 else 1)).
  { unfold tilt_penalty_of. cbv zeta. rewrite D. subst low.
    destruct (Qlt_le_dec 25 (Qabs lat)); reflexivity. }
  repeat split.
  - assert (M : Py.min (Qabs lat) 35.0 == Qmin (Qabs lat) 35).
    { rewrite py_min_Qmin. apply Q.min_compat; reflexivity. }
    rewrite <- M, D. subst low.
    destruct (Qlt_le_dec 25 (Qabs lat)); reflexivity.
  - exact P.
  - unfold _calculate_realistic_annual_poa.
    rewrite base_poa_of_table, P. reflexivity.
Qed.

(** ** Monthly distribution *)

Section Sums.

Lemma fold_left_Qplus (l : list Q) (a : Q) :
  fold_left Qplus l a == a + Py.sum l.
Proof.
  unfold Py.sum. revert a.
  induction l as [| x l IH]; intros a; cbn.
  - ring.
  - rewrite (IH (a + x)), (IH (0 + x)). ring.
Qed.

Lemma sum_cons (x : Q) (l : list Q) : Py.sum (x :: l) == x + Py.sum l.
Proof. unfold Py.sum at 1. cbn. rewrite fold_left_Qplus. ring. Qed.

Lemma sum_map_times (c : Q) (l : list Q) :
  Py.sum (map (fun v => v * c) l) == Py.sum l * c.
Proof.
  induction l as [| x l IH]; cbn [map].
  - reflexivity.
  - rewrite !sum_cons, IH. ring.
Qed.

Lemma sum_map_share (total s : Q) (l : list Q) :
  Py.sum (map (fun frac => total * frac) (map (fun f => f / s) l))
    == total * (Py.sum l / s).
Proof.
  induction l as [| x l IH]; cbn [map].
  - unfold Py.sum; cbn. unfold Qdiv. ring.
  - rewrite !sum_cons, IH. unfold Qdiv. ring.
Qed.

Lemma sum_positive (l : list Q) :
  l <> [] -> Forall (fun f => 0 < f) l -> 0 < Py.sum l.
Proof.
  induction 2 as [| x l Hx Hl IH]; [congruence|].
  rewrite sum_cons. destruct l as [| y l].
  - unfold Py.sum; cbn. lra.
  - assert (0 < Py.sum (y :: l)) by (apply IH; discriminate). lra.
Qed.

Lemma shares_nonneg (total s : Q) (l : list Q) :
  0 <= total -> 0 < s -> Forall (fun f => 0 < f) l ->
  Forall (fun v => 0 <= v)
         (map (fun frac => total * frac) (map (fun f => f / s) l)).
Proof.
  intros Ht Hs Hl. rewrite map_map. apply Forall_map.
  apply Forall_impl with (2 := Hl). intros f Hf.
  apply Qmult_le_0_compat; [exact Ht|].
  apply Qlt_le_weak, Qlt_shift_div_l; [exact Hs | lra].
Qed.

Lemma scaled_nonneg (c : Q) (l : list Q) :
  0 <= c -> Forall (fun v => 0 <= v) l ->
  Forall (fun v => 0 <= v) (map (fun v => v * c) l).
Proof.
  intros Hc Hl. apply Forall_map.
  apply Forall_impl with (2 := Hl). intros v Hv.
  now apply Qmult_le_0_compat.
Qed.

End Sums.

(** The template in use is one of the four tables, possibly rotated: twelve
    positive weights. *)
Lemma monthly_factors_shape (latitude longitude : Q) :
  List.length (monthly_factors_of latitude longitude) = 12%nat /\
  Forall (fun f => 0 < f) (monthly_factors_of latitude longitude).
Proof.
  unfold monthly_factors_of, template_of.
  destruct (Py.ltb latitude 0), (is_monsoon_region _ _),
    (Py.ltb (Qabs latitude) 23.5), (Py.ltb (Qabs latitude) 45);
    (split; [reflexivity | cbn; repeat constructor]).
Qed.

Lemma monthly_distribution_length (latitude longitude annual_total : Q) :
  List.length (_calculate_monthly_distribution latitude longitude annual_total)
    = 12%nat.
Proof.
  unfold _calculate_monthly_distribution. cbv zeta.
  destruct (Py.ltb 0 _); rewrite !length_map; apply monthly_factors_shape.
Qed.



Lemma template_of_opp (latitude longitude : Q) :
  template_of (- latitude) longitude = template_of latitude longitude.
Proof.
  unfold template_of. cbv zeta.
  pose proof (Qabs_opp latitude) as A.
  assert (M : is_monsoon_region (Qabs (- latitude)) longitude
              = is_monsoon_region (Qabs latitude) longitude).
  { unfold is_monsoon_region.
    now rewrite (leb_proper _ _ (Qeq_refl 8) _ _ A),
                (leb_proper _ _ A _ _ (Qeq_refl 37)). }
  rewrite M, (ltb_proper _ _ A _ _ (Qeq_refl 23.5)),
          (ltb_proper _ _ A _ _ (Qeq_refl 45)).
  reflexivity.
Qed.

(** C6: south of the equator the twelve seasonal weights are those selected
    for the opposite latitude (same longitude) rotated by six positions. *)
Theorem southern_template_rotated (latitude longitude : Q) :
  latitude < 0 ->
  monthly_factors_of latitude longitude
    = rotate6 (monthly_factors_of (- latitude) longitude) /\
  List.length (monthly_factors_of latitude longitude) = 12%nat.
Proof.
  intros South. split; [|apply monthly_factors_shape].
  unfold monthly_factors_of. cbv zeta.
  rewrite template_of_opp.
  assert (S : Py.ltb latitude 0 = true) by now apply ltb_true.
  assert (N : Py.ltb (- latitude) 0 = false) by (apply ltb_false; lra).
  rewrite S, N. reflexivity.
Qed.

Lemma southern_template_rotated_witness :
  monthly_factors_of (-33.9) 151.2
    = rotate6 (monthly_factors_of (- (-33.9)) 151.2) /\
  List.length (monthly_factors_of (-33.9) 151.2) = 12%nat.
Proof. apply (southern_template_rotated (-33.9) 151.2). reflexivity. Defined.

(** ** Azimuth and direction *)

Lemma Qfloor_unique (x : Q) (z : Z) :
  inject_Z z <= x -> x < inject_Z z + 1 -> Qfloor x = z.
Proof.
  intros Lo Hi.
  pose proof (Qfloor_le x) as FL. pose proof (Qlt_floor x) as FH.
  rewrite inject_Z_plus in FH. change (inject_Z 1) with 1 in FH.
  assert (A : inject_Z z < inject_Z (Qfloor x) + 1) by lra.
  assert (B : inject_Z (Qfloor x) < inject_Z z + 1) by lra.
  change 1 with (inject_Z 1) in A, B.
  rewrite <- inject_Z_plus, <- Zlt_Qlt in A, B. lia.
Qed.

Lemma mod_360_range (azimuth : Q) :
  0 <= Py.mod_ azimuth 360 /\ Py.mod_ azimuth 360 < 360.
Proof.
  unfold Py.mod_.
  pose proof (Qfloor_le (azimuth / 360)) as FL.
  pose proof (Qlt_floor (azimuth / 360)) as FH.
  rewrite inject_Z_plus in FH. change (inject_Z 1) with 1 in FH.
  set (q := inject_Z (Qfloor (azimuth / 360))) in *.
  assert (E : azimuth == 360 * (azimuth / 360)) by (field; lra).
  split; lra.
Qed.

Lemma bin_index (azimuth : Q) (k : Z) :
  45 * inject_Z k - 22.5 <= Py.mod_ azimuth 360 ->
  Py.mod_ azimuth 360 < 45 * inject_Z k + 22.5 ->
  (Qfloor ((azimuth + 22.5) / 45) mod 8 = k mod 8)%Z.
Proof.
  unfold Py.mod_. intros Lo Hi.
  set (q := Qfloor (azimuth / 360)) in *.
  assert (F : Qfloor ((azimuth + 22.5) / 45) = (k + q * 8)%Z).
  { apply Qfloor_unique; rewrite inject_Z_plus, inject_Z_mult;
      change (inject_Z 8) with 8.
    - apply Qle_shift_div_l; lra.
    - apply Qlt_shift_div_r; lra. }
  rewrite F. apply Z_mod_plus_full.
Qed.

Lemma direction_is_bin (azimuth : Q) :
  _get_direction_name azimuth = compass_bin azimuth.
Proof.
  unfold _get_direction_name, compass_bin. cbv zeta.
  destruct (mod_360_range azimuth) as [R0 R1].
  branches;
    first [ rewrite (bin_index azimuth 0) by (cbv [inject_Z]; lra)
          | rewrite (bin_index azimuth 1) by (cbv [inject_Z]; lra)
          | rewrite (bin_index azimuth 2) by (cbv [inject_Z]; lra)
          | rewrite (bin_index azimuth 3) by (cbv [inject_Z]; lra)
          | rewrite (bin_index azimuth 4) by (cbv [inject_Z]; lra)
          | rewrite (bin_index azimuth 5) by (cbv [inject_Z]; lra)
          | rewrite (bin_index azimuth 6) by (cbv [inject_Z]; lra)
          | rewrite (bin_index azimuth 7) by (cbv [inject_Z]; lra)
          | rewrite (bin_index azimuth 8) by (cbv [inject_Z]; lra) ];
    reflexivity.
Qed.

Lemma azimuth_by_hemisphere (lat : Q) :
  optimal_azimuth_of lat = (if Qlt_le_dec lat 0 then 0.0 else 180.0).
Proof.
  unfold optimal_azimuth_of.
  destruct (Qlt_le_dec lat 0); branches; try reflexivity; lra.
Qed.

(** C5: in every 200 answer [optimal_azimuth] is 180 for latitude >= 0 and 0
    for latitude < 0; the direction name of any azimuth is its compass bin
    (eight bins of 45 degrees centred on the points, wrapping at 0/360), so
    180 is "South" and 0 is "North", which are the names the handler derives. *)
Theorem azimuth_and_direction (request : SolarRequest) (net : fetch) :
  let lat := latitude request in
  match get_solar_data request net with
  | Ok200 r => r_optimal_azimuth r == (if Qlt_le_dec lat 0 then 0 else 180)
  | Error500 _ => wants_weather request = true
  end /\
  (forall azimuth, _get_direction_name azimuth = compass_bin azimuth) /\
  _get_direction_name 180 = "South"%string /\
  _get_direction_name 0 = "North"%string /\
  _get_direction_name (optimal_azimuth_of lat)
    = (if Qlt_le_dec lat 0 then "North" else "South")%string.
Proof.
  intros lat. split; [|split; [exact direction_is_bin | repeat split]].
  - unfold get_solar_data.
    destruct (wants_weather request);
      [destruct (get_weather_data _ _ net) as [wd | e]|]; cbn;
      try reflexivity; fold lat; rewrite azimuth_by_hemisphere;
      destruct (Qlt_le_dec lat 0); reflexivity.
  - fold lat. rewrite azimuth_by_hemisphere.
    destruct (Qlt_le_dec lat 0); reflexivity.
Qed.

(** ** Weather adjustment *)

Lemma build_report_of_answer (request : SolarRequest) (net : fetch)
      (r : report) (w : weather) :
  get_solar_data request net = Ok200 r ->
  r_weather_data r = Some w ->
  r = build_report request (Some w).
Proof.
  intros H W. destruct (get_solar_data_ok _ _ _ H) as [wd ->].
  cbn in W. now subst wd.
Qed.

Lemma twelve_by_index {A : Type} (f : Q -> A) (l : list Q) :
  List.length l = 12%nat ->
  map (fun i => f (nth i l 0)) (seq 0 12) = map f l.
Proof.
  intros L.
  do 13 (destruct l as [| ? l]; try discriminate L).
  reflexivity.
Qed.

Example sample_fetch :
  get_weather_data 28.6 77.2 (Body sample_body) = Returned (Some sample_weather).
Proof. reflexivity. Qed.

Example sample_answer :
  get_solar_data sample_request (Body sample_body)
    = Ok200 (build_report sample_request (Some sample_weather)).
Proof. reflexivity. Qed.



(** ** Tips *)

Lemma tips_before_weather (lat optimal_tilt : Q) :
  exists a b,
    tips_of lat optimal_tilt None
      = [a; b;
         "Regular cleaning improves efficiency by 2-5%"%string;
         "Avoid shading between 10 AM - 2 PM for optimal performance"%string;
         tilt_tip optimal_tilt] /\
    a <> humidity_tip /\ b <> humidity_tip.
Proof.
  unfold tips_of. cbv zeta.
  destruct (Py.ltb (Qabs lat) 23.5); [|destruct (Py.ltb (Qabs lat) 40)];
    do 2 eexists; (split; [reflexivity|]); split; discriminate.
Qed.

Lemma tips_with_weather (lat optimal_tilt : Q) (w : weather) :
  tips_of lat optimal_tilt (Some w)
  = (if (70 <? cloud_cover w)%Z then [cloud_cover_tip (cloud_cover w)] else [])
      ++ tips_of lat optimal_tilt None
      ++ (if (80 <? humidity w)%Z then [humidity_tip] else []).
Proof.
  unfold tips_of. cbv zeta.
  destruct (70 <? cloud_cover w)%Z, (80 <? humidity w)%Z; cbn [app];
    rewrite ?app_nil_r; reflexivity.
Qed.

(** C8: the answer carries at most six tips, and when weather data is
    present with cloud_cover > 70 the cloud-cover tip is the first of them. *)
Theorem tips_truncated (request : SolarRequest) (net : fetch) (r : report) :
  get_solar_data request net = Ok200 r ->
  (List.length (r_tips r) <= 6)%nat /\
  forall w, r_weather_data r = Some w -> (70 < cloud_cover w)%Z ->
            nth_error (r_tips r) 0 = Some (cloud_cover_tip (cloud_cover w)).
Proof.
  intros H. split.
  - destruct (get_solar_data_ok _ _ _ H) as [wd ->].
    cbn [build_report r_tips]. apply firstn_le_length.
  - intros w W C. rewrite (build_report_of_answer _ _ _ _ H W).
    cbn [build_report r_tips]. rewrite tips_with_weather.
    apply Z.ltb_lt in C. rewrite C. reflexivity.
Qed.

Lemma tips_truncated_witness :
  (List.length (r_tips (build_report sample_request (Some sample_weather))) <= 6)%nat /\
  nth_error (r_tips (build_report sample_request (Some sample_weather))) 0
    = Some "High cloud cover (90%) may reduce current efficiency"%string.
Proof.
  assert (A : get_solar_data sample_request (Body sample_body)
              = Ok200 (build_report sample_request (Some sample_weather)))
    by reflexivity.
  destruct (tips_truncated _ _ _ A) as [L F].
  split; [exact L|].
  apply (F sample_weather); reflexivity.
Defined.

Lemma formatted_tips_differ (cc : Z) (optimal_tilt : Q) :
  cloud_cover_tip cc <> humidity_tip /\ tilt_tip optimal_tilt <> humidity_tip.
Proof.
  unfold cloud_cover_tip, tilt_tip, humidity_tip.
  split; cbn [append]; discriminate.
Qed.

(** C10: when weather data is present with cloud_cover > 70 and
    humidity > 80, the humidity tip is the seventh entry of the list before
    truncation and so is absent from the six tips of the answer. *)
Theorem humidity_tip_dropped (request : SolarRequest) (net : fetch)
        (r : report) (w : weather) :
  get_solar_data request net = Ok200 r ->
  r_weather_data r = Some w ->
  (70 < cloud_cover w)%Z -> (80 < humidity w)%Z ->
  let tips := tips_of (latitude request) (optimal_tilt_of (latitude request))
                      (Some w) in
  nth_error tips 6 = Some humidity_tip /\
  List.length tips = 7%nat /\
  r_tips r = firstn 6 tips /\
  ~ In humidity_tip (r_tips r).
Proof.
  intros H W C Hu tips.
  rewrite (build_report_of_answer _ _ _ _ H W).
  cbn [build_report r_tips]. fold tips.
  unfold tips. rewrite tips_with_weather.
  apply Z.ltb_lt in C, Hu. rewrite C, Hu.
  destruct (tips_before_weather (latitude request)
              (optimal_tilt_of (latitude request))) as (a & b & -> & Na & Nb).
  destruct (formatted_tips_differ (cloud_cover w)
              (optimal_tilt_of (latitude request))) as [Nc Nt].
  repeat split.
  cbn. intros [E | [E | [E | [E | [E | [E | []]]]]]];
    first [contradiction | discriminate E].
Qed.

Lemma humidity_tip_dropped_witness :
  ~ In humidity_tip (r_tips (build_report sample_request (Some sample_weather))).
Proof.
  assert (A : get_solar_data sample_request (Body sample_body)
              = Ok200 (build_report sample_request (Some sample_weather)))
    by reflexivity.
  apply (humidity_tip_dropped _ _ _ sample_weather A); reflexivity.
Defined.

(** ** Weather failures *)

Lemma absorbed_gives_none (lat lng : Q) (net : fetch) :
  absorbed net -> get_weather_data lat lng net = Returned None.
Proof.
  destruct 1 as [| | members E | members current E T]; cbn;
    try reflexivity; rewrite E; cbn; [reflexivity | now rewrite T].
Qed.

(** An absorbed failure leaves the answer of a request that asked for
    weather equal, field by field, to the unadjusted one, up to the echo of
    the flag itself. *)
Lemma absorbed_answer_unadjusted (lat lng : Q) (net : fetch) :
  absorbed net ->
  let asked := {| latitude := lat; longitude := lng; include_weather := Some true |} in
  let plain := {| latitude := lat; longitude := lng; include_weather := Some false |} in
  exists r r',
    get_solar_data asked net = Ok200 r /\
    get_solar_data plain net = Ok200 r' /\
    r_weather_data r = None /\
    r_annual_irradiance r = r_annual_irradiance r' /\
    r_efficiency_gain r = r_efficiency_gain r' /\
    r_monthly_data r = r_monthly_data r' /\
    r_weather_adjusted r = Some true.
Proof.
  intros A asked plain.
  exists (build_report asked None), (build_report plain None).
  unfold get_solar_data, asked, plain.
  cbn [wants_weather include_weather latitude longitude].
  rewrite (absorbed_gives_none lat lng net A).
  repeat split.
Qed.

(** C4: a weather failure must leave the request successful with
    [weather_data] null and unadjusted figures.  A [current] block that lacks
    a measurement makes [round] raise [TypeError], which the [except] clause
    of [get_weather_data] does not catch: the request is answered 500. *)
Theorem malformed_current_fails_request :
  get_weather_data 28.6 77.2 (Body degraded_body) = Raised TypeError /\
  get_solar_data sample_request (Body degraded_body) = Error500 TypeError /\
  get_solar_data sample_request TransportError
    = Ok200 (build_report sample_request None).
Proof. repeat split. Qed.

(** * Further properties of [backend/main.py] *)

(** ** Direction names round the compass *)

Lemma Qfloor_shift (x : Q) (n : Z) : Qfloor (x + inject_Z n) = (Qfloor x + n)%Z.
Proof.
  pose proof (Qfloor_le x) as FL. pose proof (Qlt_floor x) as FH.
  rewrite inject_Z_plus in FH. change (inject_Z 1) with 1 in FH.
  apply Qfloor_unique; rewrite inject_Z_plus; lra.
Qed.

Lemma bin_turn (azimuth : Q) (j : Z) :
  Qfloor ((azimuth + 45 * inject_Z j + 22.5) / 45)
  = (Qfloor ((azimuth + 22.5) / 45) + j)%Z.
Proof.
  rewrite <- Qfloor_shift. apply Qfloor_comp. field.
Qed.



(** ** Tilt penalty and annual irradiance *)

Lemma Qabs_cases (d : Q) :
  (0 <= d /\ Qabs d == d) \/ (d < 0 /\ Qabs d == - d).
Proof.
  destruct (Qlt_le_dec d 0) as [N | P].
  - right. split; [exact N | apply Qabs_neg; lra].
  - left. split; [exact P | now apply Qabs_pos].
Qed.

Lemma tilt_penalty_bounds (latitude tilt : Q) :
  0.75 <= tilt_penalty_of latitude tilt <= 1.
Proof.
  unfold tilt_penalty_of. cbv zeta.
  pose proof (Qabs_nonneg (tilt - Py.min (Qabs latitude) 35.0)) as A.
  destruct (max_cases 0.75
              (1.0 - 0.01 * Qabs (tilt - Py.min (Qabs latitude) 35.0)))
    as [[L ->] | [L ->]]; split; lra.
Qed.


Lemma base_poa_range (latitude longitude : Q) :
  800 <= base_poa_of latitude longitude <= 1900 /\
  (Qabs latitude <= 25 -> 1487.5 <= base_poa_of latitude longitude).
Proof.
  unfold base_poa_of, is_monsoon_region. cbv zeta.
  set (a := Qabs latitude).
  branches; repeat split; intros; lra.
Qed.

Lemma own_penalty (lat : Q) :
  tilt_penalty_of lat (optimal_tilt_of lat)
    == (if Qlt_le_dec 25 (Qabs lat) then 1 else 0.98).
Proof.
  unfold tilt_penalty_of. cbv zeta. rewrite own_tilt_difference.
  destruct (Qlt_le_dec 25 (Qabs lat)); reflexivity.
Qed.

Lemma annual_poa_bounds (latitude longitude : Q) :
  800 <= _calculate_realistic_annual_poa latitude longitude
           (optimal_tilt_of latitude) <= 1862.
Proof.
  unfold _calculate_realistic_annual_poa.
  destruct (base_poa_range latitude longitude) as [[B0 B1] B25].
  rewrite own_penalty.
  set (b := base_poa_of latitude longitude) in *.
  destruct (Qlt_le_dec 25 (Qabs latitude)) as [High | Low].
  - assert (b <= 1800).
    { unfold b, base_poa_of, is_monsoon_region. cbv zeta.
      set (a := Qabs latitude) in *. branches; lra. }
    split; lra.
  - specialize (B25 Low). split; lra.
Qed.

(** X4: the annual irradiance is never below 600 nor above 1900 whatever
    the tilt, and with the tilt the handler chooses it lies in [800, 1862]:
    the figure the handler distributes over the months is positive. *)
Theorem annual_poa_range (latitude longitude tilt : Q) :
  600 <= _calculate_realistic_annual_poa latitude longitude tilt <= 1900 /\
  800 <= _calculate_realistic_annual_poa latitude longitude
           (optimal_tilt_of latitude) <= 1862.
Proof.
  unfold _calculate_realistic_annual_poa.
  destruct (base_poa_range latitude longitude) as [[B0 B1] B25].
  split.
  - destruct (tilt_penalty_bounds latitude tilt) as [P0 P1].
    set (b := base_poa_of latitude longitude) in *.
    set (p := tilt_penalty_of latitude tilt) in *.
    split; nra.
  - apply annual_poa_bounds.
Qed.

(** ** Efficiency and the weather adjustment *)

Lemma scale_between (x f lo : Q) :
  0 <= x -> lo <= f <= 1 -> lo * x <= x * f <= x.
Proof.
  intros X [F0 F1].
  assert (A : 0 <= x * (f - lo)) by (apply Qmult_le_0_compat; lra).
  assert (B : 0 <= x * (1 - f)) by (apply Qmult_le_0_compat; lra).
  split; lra.
Qed.

(** X5: the headline efficiency gain lies in [5, 25]; for a cloud cover in
    0..100 and a humidity of at most 100 the weather adjustment only lowers
    the two figures, the efficiency by at most 34% and the annual irradiance
    by at most 15%, so the adjusted annual irradiance stays positive. *)
Theorem weather_only_reduces (lat lng : Q) (w : weather) :
  (0 <= cloud_cover w <= 100)%Z -> (humidity w <= 100)%Z ->
  let efficiency_gain := Py.min 25 (5 + Qabs lat * 0.3) in
  let annual_poa := _calculate_realistic_annual_poa lat lng (optimal_tilt_of lat) in
  5 <= efficiency_gain <= 25 /\
  0.66 * efficiency_gain
    <= weather_adjusted_efficiency_of efficiency_gain (Some w)
    <= efficiency_gain /\
  0.85 * annual_poa <= weather_adjusted_poa_of annual_poa (Some w) <= annual_poa /\
  680 <= weather_adjusted_poa_of annual_poa (Some w).
Proof.
  intros [C0 C1] H1 efficiency_gain annual_poa.
  destruct (annual_poa_bounds lat lng) as [A0 A1]. fold annual_poa in A0, A1.
  assert (G : 5 <= efficiency_gain <= 25).
  { unfold efficiency_gain. pose proof (Qabs_nonneg lat).
    destruct (min_cases 25 (5 + Qabs lat * 0.3)) as [[L ->] | [L ->]];
      split; lra. }
  unfold weather_adjusted_efficiency_of, weather_adjusted_poa_of,
    cloud_penalty_of, humidity_penalty_of.
  rewrite Zle_Qle in C0, C1, H1.
  change (inject_Z 0) with 0 in C0. change (inject_Z 100) with 100 in C1, H1.
  set (c := inject_Z (cloud_cover w)) in *.
  set (h := inject_Z (humidity w)) in *.
  set (g := efficiency_gain) in *. set (a := annual_poa) in *.
  unfold Qdiv. change (/ 100) with (1 # 100).
  assert (P : 0.85 * a <= a * (1 - c * (1 # 100) * 0.3 * 0.5) <= a)
    by (apply scale_between; [|split]; lra).
  split; [exact G|]. split; [|split; [exact P | lra]].
  destruct (max_cases 0 ((h - 60) * (1 # 100))) as [[L ->] | [L ->]];
    apply scale_between; try split; lra.
Qed.

Lemma weather_only_reduces_witness :
  680 <= weather_adjusted_poa_of
           (_calculate_realistic_annual_poa 28.6 77.2 (optimal_tilt_of 28.6))
           (Some sample_weather).
Proof.
  apply (weather_only_reduces 28.6 77.2 sample_weather); cbn; lia.
Defined.

(** ** Monthly values, peak and low month *)

Lemma shares_sum (total : Q) (l : list Q) :
  0 < Py.sum l ->
  Py.sum (map (fun frac => total * frac) (map (fun f => f / Py.sum l) l))
    == total.
Proof. intros S. rewrite sum_map_share. field. lra. Qed.

Lemma Forall2_map_pointwise (f g : Q -> Q) (l : list Q) :
  (forall x, f x == g x) -> Forall2 Qeq (map f l) (map g l).
Proof.
  intros E. induction l as [| x l IH]; cbn; constructor; auto.
Qed.

Lemma Forall2_zero (vs ms : list Q) :
  Forall2 Qeq vs ms -> Forall (fun m => m == 0) ms -> Forall (fun v => v == 0) vs.
Proof.
  induction 1 as [| v m vs ms E P IH]; intros Z; constructor;
    inversion Z; subst.
  - now rewrite E.
  - now apply IH.
Qed.

Lemma factors_sum_positive (latitude longitude : Q) :
  0 < Py.sum (monthly_factors_of latitude longitude).
Proof.
  destruct (monthly_factors_shape latitude longitude) as [Len Pos].
  apply sum_positive; [|exact Pos].
  intros E. rewrite E in Len. discriminate.
Qed.

(** The rescaling step multiplies by one. *)
Lemma rescale_is_identity (latitude longitude annual_total : Q) :
  let l := monthly_factors_of latitude longitude in
  let mv := map (fun frac => annual_total * frac)
                (map (fun f => f / Py.sum l) l) in
  Py.ltb 0 (Py.sum mv) = true -> annual_total / Py.sum mv == 1.
Proof.
  intros l mv P. apply ltb_true in P.
  pose proof (shares_sum annual_total l (factors_sum_positive _ _)) as S.
  fold mv in S. rewrite S in *. field. lra.
Qed.

Lemma monthly_values_pointwise (latitude longitude annual_total : Q) :
  let l := monthly_factors_of latitude longitude in
  Forall2 Qeq (_calculate_monthly_distribution latitude longitude annual_total)
          (map (fun f => annual_total * f / Py.sum l) l).
Proof.
  intros l.
  unfold _calculate_monthly_distribution. cbv zeta. fold l.
  destruct (Py.ltb 0 _) eqn:B.
  - pose proof (rescale_is_identity latitude longitude annual_total B) as One.
    fold l in One. cbv zeta in One.
    set (scale := annual_total / Py.sum _) in *.
    rewrite !map_map.
    apply Forall2_map_pointwise. intros f. rewrite One.
    unfold Qdiv. ring.
  - rewrite map_map. apply Forall2_map_pointwise. intros f.
    unfold Qdiv. ring.
Qed.

(** X6: each monthly value is the annual total times the month's weight
    over the sum of the twelve weights: the final rescaling changes nothing,
    and a zero annual total gives twelve zeros. *)
Theorem monthly_values_proportional (latitude longitude annual_total : Q) :
  let l := monthly_factors_of latitude longitude in
  Forall2 Qeq (_calculate_monthly_distribution latitude longitude annual_total)
          (map (fun f => annual_total * f / Py.sum l) l) /\
  (annual_total == 0 ->
   Forall (fun v => v == 0)
          (_calculate_monthly_distribution latitude longitude annual_total)).
Proof.
  intros l.
  pose proof (monthly_values_pointwise latitude longitude annual_total) as P.
  split; [exact P|].
  intros Z. apply (Forall2_zero _ _ P).
  apply Forall_map, Forall_forall. intros f _.
  rewrite Z. unfold Qdiv. ring.
Qed.

Lemma monthly_values_proportional_witness :
  Forall (fun v => v == 0) (_calculate_monthly_distribution 51.5 0 0).
Proof. apply (monthly_values_proportional 51.5 0 0). reflexivity. Defined.

Section ArgBest.

Variable better : Q -> Q -> bool.
Variable R : Q -> Q -> Prop.
Hypothesis better_R :
  forall a a' b b', R a a' -> R b b' -> better a b = better a' b'.

Lemma arg_best_related (l l' : list Q) :
  Forall2 R l l' ->
  forall (i : nat) (x x' : Q) (best_i : nat),
    R x x' ->
    Py.arg_best better l i x best_i = Py.arg_best better l' i x' best_i.
Proof.
  induction 1 as [| y y' l l' Ry Rl IH]; intros i x x' best_i Rx; cbn.
  - reflexivity.
  - rewrite (better_R y y' x x' Ry Rx).
    destruct (better y' x'); now apply IH.
Qed.

End ArgBest.

Lemma ltb_scaled (c a a' b b' : Q) :
  0 < c -> a' == a * c -> b' == b * c -> Py.ltb a b = Py.ltb a' b'.
Proof.
  intros C Ea Eb. rewrite (ltb_proper _ _ Ea _ _ Eb).
  destruct (Py.ltb a b) eqn:E1, (Py.ltb (a * c) (b * c)) eqn:E2;
    try reflexivity; exfalso.
  - apply ltb_true in E1. apply ltb_false in E2. nra.
  - apply ltb_false in E1. apply ltb_true in E2. nra.
Qed.

Lemma Forall2_of_map (F : Q -> Q) (l vs : list Q) :
  Forall2 Qeq vs (map F l) -> Forall2 (fun f v => v == F f) l vs.
Proof.
  revert vs. induction l as [| f l IH]; intros vs H; inversion H; subst.
  - constructor.
  - constructor; [assumption | now apply IH].
Qed.

(** For a positive annual total the first largest and first smallest of the
    monthly values stand where those of the weights stand. *)
Lemma arg_distribution (latitude longitude annual_total : Q) :
  0 < annual_total ->
  let vs := _calculate_monthly_distribution latitude longitude annual_total in
  let l := monthly_factors_of latitude longitude in
  Py.argmax vs = Py.argmax l /\ Py.argmin vs = Py.argmin l.
Proof.
  intros T vs l.
  pose proof (factors_sum_positive latitude longitude) as S. fold l in S.
  set (c := annual_total / Py.sum l).
  assert (C : 0 < c) by (apply Qlt_shift_div_l; lra).
  assert (P : Forall2 (fun f v => v == f * c) l vs).
  { pose proof (monthly_values_pointwise latitude longitude annual_total) as P.
    apply Forall2_of_map in P. fold l vs in P.
    revert P. apply Forall2_impl. intros f v ->. unfold c, Qdiv. ring. }
  clearbody c vs l.
  destruct P as [| f v l' vs' E P]; [split; reflexivity|].
  unfold Py.argmax, Py.argmin. split; symmetry.
  - apply (arg_best_related (fun a b => Py.ltb b a) (fun f v => v == f * c));
      try assumption.
    intros a a' b b' Ea Eb. now apply (ltb_scaled c).
  - apply (arg_best_related Py.ltb (fun f v => v == f * c)); try assumption.
    intros a a' b b' Ea Eb. now apply (ltb_scaled c).
Qed.

Lemma adjusted_poa_positive (lat lng : Q) (weather_data : option weather) :
  cloud_cover_is_percentage weather_data ->
  0 < weather_adjusted_poa_of
        (_calculate_realistic_annual_poa lat lng (optimal_tilt_of lat))
        weather_data.
Proof.
  destruct (annual_poa_bounds lat lng) as [A0 A1].
  set (a := _calculate_realistic_annual_poa lat lng (optimal_tilt_of lat)) in *.
  destruct weather_data as [w |]; cbn; [|lra].
  intros [C0 C1]. unfold cloud_penalty_of.
  rewrite Zle_Qle in C0, C1.
  change (inject_Z 0) with 0 in C0. change (inject_Z 100) with 100 in C1.
  set (c := inject_Z (cloud_cover w)) in *.
  unfold Qdiv. change (/ 100) with (1 # 100).
  apply Qmult_lt_0_compat; lra.
Qed.

Lemma report_peak_low (request : SolarRequest) (weather_data : option weather) :
  cloud_cover_is_percentage weather_data ->
  let l := monthly_factors_of (latitude request) (longitude request) in
  r_peak_month (build_report request weather_data)
    = nth (Py.argmax l) months_full ""%string /\
  r_low_month (build_report request weather_data)
    = nth (Py.argmin l) months_full ""%string.
Proof.
  intros W l. cbn [build_report r_peak_month r_low_month].
  destruct (arg_distribution (latitude request) (longitude request) _
              (adjusted_poa_positive (latitude request) (longitude request)
                 weather_data W)) as [-> ->].
  split; reflexivity.
Qed.

(** X7: as long as the cloud cover is a percentage, the peak and the low
    month of the answer are the months of the first largest and first
    smallest seasonal weight of the location: the weather never moves them. *)
Theorem peak_low_month_by_location
        (request : SolarRequest) (weather_data : option weather) :
  cloud_cover_is_percentage weather_data ->
  let l := monthly_factors_of (latitude request) (longitude request) in
  let r := build_report request weather_data in
  r_peak_month r = nth (Py.argmax l) months_full ""%string /\
  r_low_month r = nth (Py.argmin l) months_full ""%string /\
  r_peak_month r = r_peak_month (build_report request None) /\
  r_low_month r = r_low_month (build_report request None).
Proof.
  intros W l r.
  destruct (report_peak_low request weather_data W) as [P L].
  destruct (report_peak_low request None I) as [P0 L0].
  unfold r. rewrite P, L, P0, L0. repeat split.
Qed.

Lemma peak_low_month_by_location_witness :
  r_peak_month (build_report sample_request (Some sample_weather))
    = r_peak_month (build_report sample_request None) /\
  r_low_month (build_report sample_request (Some sample_weather))
    = r_low_month (build_report sample_request None).
Proof.
  assert (W : cloud_cover_is_percentage (Some sample_weather)) by (cbn; lia).
  destruct (peak_low_month_by_location sample_request (Some sample_weather) W)
    as (_ & _ & P & L).
  split; [exact P | exact L].
Defined.

(** X8: north of the equator (latitude >= 0) the peak and low months are
    April and July in the monsoon rectangle, March and June below 23.5
    degrees, July and December below 45 degrees, June and December beyond. *)
Theorem northern_peak_low_months
        (request : SolarRequest) (weather_data : option weather) :
  0 <= latitude request ->
  cloud_cover_is_percentage weather_data ->
  let r := build_report request weather_data in
  (r_peak_month r, r_low_month r)
  = northern_peak_low (Qabs (latitude request)) (longitude request).
Proof.
  intros N W r.
  destruct (report_peak_low request weather_data W) as [P L].
  unfold r. rewrite P, L.
  unfold monthly_factors_of, template_of, is_monsoon_region, northern_peak_low.
  cbv zeta. set (a := Qabs (latitude request)).
  branches; try lra;
    split_within; try lra;
    repeat match goal with
           | |- context [Qlt_le_dec ?x ?y] => destruct (Qlt_le_dec x y)
           end; try lra; reflexivity.
Qed.

Lemma northern_peak_low_months_witness :
  (r_peak_month (build_report sample_request (Some sample_weather)),
   r_low_month (build_report sample_request (Some sample_weather)))
  = ("April", "July")%string.
Proof.
  apply (northern_peak_low_months sample_request (Some sample_weather));
    cbn; [discriminate | lia].
Defined.



(** ** Which tips are returned *)

(** X10: the answer carries five tips without weather data or when neither
    threshold is exceeded, and six otherwise; the tip restating the optimal
    tilt is always among them, and the humidity tip is returned exactly when
    humidity exceeds 80 while cloud cover does not exceed 70. *)
Theorem tips_by_weather (request : SolarRequest) (weather_data : option weather) :
  let r := build_report request weather_data in
  let tilt := optimal_tilt_of (latitude request) in
  List.length (r_tips r)
  = match weather_data with
    | Some w =>
        if (70 <? cloud_cover w)%Z || (80 <? humidity w)%Z then 6%nat else 5%nat
    | None => 5%nat
    end /\
  In (tilt_tip tilt) (r_tips r) /\
  (In humidity_tip (r_tips r) <->
   exists w, weather_data = Some w /\
             (80 < humidity w)%Z /\ (cloud_cover w <= 70)%Z).
Proof.
  intros r tilt. unfold r. cbn [build_report r_tips]. fold tilt.
  destruct (tips_before_weather (latitude request) tilt)
    as (a & b & E & Na & Nb).
  assert (Nk : forall cc, cloud_cover_tip cc <> humidity_tip)
    by (intros cc; apply (formatted_tips_differ cc tilt)).
  assert (Nt : tilt_tip tilt <> humidity_tip)
    by apply (formatted_tips_differ 0 tilt).
  assert (No : forall pre,
             (forall x, In x pre -> x <> humidity_tip) ->
             ~ In humidity_tip
                 (pre ++ [a; b;
                          "Regular cleaning improves efficiency by 2-5%"%string;
                          "Avoid shading between 10 AM - 2 PM for optimal performance"%string;
                          tilt_tip tilt])).
  { intros pre Hpre F. apply in_app_or in F. destruct F as [F | F].
    - now apply (Hpre _ F).
    - cbn in F.
      repeat (destruct F as [F | F];
              [first [contradiction | discriminate F | now apply Nt] |]).
      contradiction. }
  destruct weather_data as [w |]; [rewrite tips_with_weather|]; rewrite E.
  - destruct (Z.ltb_spec 70 (cloud_cover w)) as [C | C],
             (Z.ltb_spec 80 (humidity w)) as [H | H]; cbn [orb app firstn];
      (split; [reflexivity|]); (split; [cbn; tauto|]); split.
    + intros F. exfalso.
      apply (No [cloud_cover_tip (cloud_cover w)]); [|exact F].
      intros x [<- | []]. apply Nk.
    + intros (w' & W & H' & C'). inversion W; subst w'. lia.
    + intros F. exfalso.
      apply (No [cloud_cover_tip (cloud_cover w)]); [|exact F].
      intros x [<- | []]. apply Nk.
    + intros (w' & W & H' & C'). inversion W; subst w'. lia.
    + intros _. exists w. repeat split; assumption.
    + intros _. cbn. tauto.
    + intros F. exfalso. apply (No []); [intros x []|exact F].
    + intros (w' & W & H' & C'). inversion W; subst w'. lia.
  - cbn [firstn]. split; [reflexivity|]. split; [cbn; tauto|]. split.
    + intros F. exfalso. apply (No []); [intros x []|exact F].
    + intros (w & W & _). discriminate W.
Qed.

(** ** What the weather collaborator returns *)


Lemma eq_int_of_Z (code n : Z) :
  Json.eq_int (JNum (inject_Z code)) n = (code =? n)%Z.
Proof.
  unfold Json.eq_int, Py.eqb, Qeq_bool, inject_Z.
  cbn [Qnum Qden]. now rewrite !Z.mul_1_r.
Qed.

(** X12: for an integer weather code the description is "Unknown" exactly
    when the code is none of the 28 tabulated ones, and it never depends on
    the day flag; fog always gets the icon "50d", and every other icon ends
    in "d" when [is_day] equals 1 and in "n" otherwise. *)
Theorem weather_description_table (code : Z) (is_day is_day' : json) :
  let wmo_code := JNum (inject_Z code) in
  let description := fst (_get_weather_description_and_icon wmo_code is_day) in
  let icon := snd (_get_weather_description_and_icon wmo_code is_day) in
  (description = "Unknown"%string <-> ~ In code known_wmo_codes) /\
  fst (_get_weather_description_and_icon wmo_code is_day') = description /\
  (if String.eqb description "Fog" then icon = "50d"%string
   else exists prefix,
       icon = (prefix ++ (if Json.eq_int is_day 1 then "d" else "n"))%string).
Proof.
  cbv zeta. unfold _get_weather_description_and_icon, Json.in_ints.
  cbn [existsb]. rewrite !eq_int_of_Z.
  unfold known_wmo_codes.
  repeat match goal with
         | |- context [(code =? ?k)%Z] =>
             destruct (Z.eqb_spec code k); [subst code; cbn [Z.eqb Pos.eqb orb]|]
         end;
    cbn [orb fst snd String.eqb Ascii.eqb Bool.eqb andb];
    (split; [split; [try discriminate; intros _; cbn; intuition lia
                    | try (intros N; exfalso; apply N; cbn; tauto);
                      reflexivity]
            |split; [reflexivity|try reflexivity; eexists; reflexivity]]).
Qed.

(** ** Rounding of the returned figures *)

Lemma round_error (x : Q) : Qabs (inject_Z (Py.round x) - x) <= 1 # 2.
Proof.
  unfold Py.round.
  pose proof (Qfloor_le x) as FL. pose proof (Qlt_floor x) as FH.
  rewrite inject_Z_plus in FH. change (inject_Z 1) with 1 in FH.
  apply Qabs_Qle_condition.
  destruct (Qcompare (x - inject_Z (Qfloor x)) (1 # 2)) eqn:C.
  - apply Qeq_alt in C.
    destruct (Z.even (Qfloor x));
      rewrite ?inject_Z_plus; change (inject_Z 1) with 1; split; lra.
  - apply Qlt_alt in C. split; lra.
  - apply Qgt_alt in C.
    rewrite inject_Z_plus. change (inject_Z 1) with 1. split; lra.
Qed.

Lemma round1_error (x : Q) : Qabs (Py.round1 x - x) <= 0.05.
Proof.
  unfold Py.round1.
  pose proof (round_error (x * 10)) as E.
  apply Qabs_Qle_condition in E. apply Qabs_Qle_condition.
  set (r := inject_Z (Py.round (x * 10))) in *.
  unfold Qdiv. change (/ 10) with (1 # 10). split; lra.
Qed.

(** X13: every figure of the answer is within 0.05 of the value computed
    before rounding: the tilt of the formula, the weather-adjusted
    efficiency and annual irradiance, and each monthly value. *)
Theorem answer_within_rounding
        (request : SolarRequest) (weather_data : option weather) :
  let lat := latitude request in
  let lng := longitude request in
  let r := build_report request weather_data in
  let annual :=
    weather_adjusted_poa_of
      (_calculate_realistic_annual_poa lat lng (optimal_tilt_of lat))
      weather_data in
  Qabs (r_optimal_tilt r - spec_tilt lat) <= 0.05 /\
  Qabs (r_annual_irradiance r - annual) <= 0.05 /\
  Qabs (r_efficiency_gain r
        - weather_adjusted_efficiency_of (Py.min 25 (5 + Qabs lat * 0.3))
                                         weather_data) <= 0.05 /\
  Forall2 (fun returned v => Qabs (returned - v) <= 0.05)
          (map snd (r_monthly_data r))
          (_calculate_monthly_distribution lat lng annual).
Proof.
  intros lat lng r annual. unfold r.
  cbn [build_report r_optimal_tilt r_annual_irradiance r_efficiency_gain
       r_monthly_data].
  fold lat lng annual.
  split; [rewrite <- optimal_tilt_of_spec; apply round1_error|].
  split; [apply round1_error|]. split; [apply round1_error|].
  rewrite map_map. cbn [snd].
  rewrite (twelve_by_index Py.round1)
    by apply monthly_distribution_length.
  induction (_calculate_monthly_distribution lat lng annual) as [| v vs IH];
    cbn; constructor; [apply round1_error | exact IH].
Qed.

(** ** The texts of the answer *)



(** ** Absorbed failures and the echoed flag *)

(** X15: when the weather call fails in an absorbed way, a request that
    asked for weather is answered 200 with [weather_data] null and the same
    annual irradiance, efficiency gain and monthly data as the request that
    did not ask, while [weather_adjusted] still echoes true. *)
Theorem failed_weather_still_flagged (lat lng : Q) (net : fetch) :
  absorbed net ->
  let asked := {| latitude := lat; longitude := lng; include_weather := Some true |} in
  let plain := {| latitude := lat; longitude := lng; include_weather := Some false |} in
  exists r r',
    get_solar_data asked net = Ok200 r /\
    get_solar_data plain net = Ok200 r' /\
    r_weather_data r = None /\
    r_weather_adjusted r = Some true /\
    r_weather_adjusted r' = Some false /\
    r_annual_irradiance r = r_annual_irradiance r' /\
    r_efficiency_gain r = r_efficiency_gain r' /\
    r_monthly_data r = r_monthly_data r' /\
    r_tips r = r_tips r'.
Proof.
  intros A asked plain.
  exists (build_report asked None), (build_report plain None).
  unfold get_solar_data, asked, plain.
  cbn [wants_weather include_weather latitude longitude].
  rewrite (absorbed_gives_none lat lng net A).
  repeat split.
Qed.

Lemma failed_weather_still_flagged_witness :
  exists r,
    get_solar_data {| latitude := 51.5; longitude := 0;
                      include_weather := Some true |}
                   (Body (JObj [("latitude"%string, JNum 51.5)])) = Ok200 r /\
    r_weather_data r = None /\ r_weather_adjusted r = Some true.
Proof.
  assert (A : absorbed (Body (JObj [("latitude"%string, JNum 51.5)])))
    by (apply absorbed_no_current; reflexivity).
  destruct (failed_weather_still_flagged 51.5 0 _ A)
    as (r & r' & R & _ & W & F & _).
  exists r. repeat split; assumption.
Defined.

(** ** Mirror latitudes *)

Lemma Qabs_opp_eq (x : Q) : Qabs (- x) = Qabs x.
Proof. destruct x as [n d]. cbn. now rewrite Z.abs_opp. Qed.

Lemma sum_app (a b : list Q) : Py.sum (a ++ b) == Py.sum a + Py.sum b.
Proof.
  induction a as [| x a IH]; cbn [app].
  - unfold Py.sum at 2. cbn. ring.
  - rewrite !sum_cons, IH. ring.
Qed.

Lemma sum_rotate6 (l : list Q) : Py.sum (rotate6 l) == Py.sum l.
Proof.
  unfold rotate6. rewrite sum_app.
  rewrite <- (firstn_skipn 6 l) at 3. rewrite sum_app. ring.
Qed.

Lemma rotate6_map (f : Q -> Q) (l : list Q) :
  rotate6 (map f l) = map f (rotate6 l).
Proof. unfold rotate6. now rewrite skipn_map, firstn_map, map_app. Qed.

Lemma Forall2_round1 (a b : list Q) :
  Forall2 Qeq a b -> map Py.round1 a = map Py.round1 b.
Proof.
  induction 1 as [| x y a b E _ IH]; cbn; [reflexivity|].
  now rewrite IH, (round1_proper _ _ E).
Qed.

Lemma distribution_rounded (latitude longitude annual_total : Q) :
  let l := monthly_factors_of latitude longitude in
  map Py.round1 (_calculate_monthly_distribution latitude longitude annual_total)
  = map Py.round1 (map (fun f => annual_total * f / Py.sum l) l).
Proof. intros l. apply Forall2_round1, monthly_values_pointwise. Qed.



(** * Properties of the router pipeline *)

(** ** Coordinate checks of the route *)

(** X17: the route answers 400 "Invalid latitude" exactly when the latitude
    is outside [-90,90], 400 "Invalid longitude" exactly when the latitude
    is inside and the longitude is outside [-180,180], and 200 exactly when
    both are inside: the latitude is checked first. *)
Theorem route_validates_coordinates
        (float_str : Q -> string) (request : Routes.LocationRequest) :
  let lat := Routes.latitude request in
  let lng := Routes.longitude request in
  let ans := Routes.get_solar_data float_str request in
  (ans = Routes.Error400 "Invalid latitude. Must be between -90 and 90."
   <-> ~ (-90 <= lat <= 90)) /\
  (ans = Routes.Error400 "Invalid longitude. Must be between -180 and 180."
   <-> -90 <= lat <= 90 /\ ~ (-180 <= lng <= 180)) /\
  ((exists body, ans = Routes.Ok200 body)
   <-> -90 <= lat <= 90 /\ -180 <= lng <= 180).
Proof.
  intros lat lng ans. unfold ans, Routes.get_solar_data. fold lat lng.
  branches; repeat split; intros;
    repeat match goal with
           | H : _ /\ _ |- _ => destruct H
           | H : exists _, _ |- _ => destruct H
           | H : ~ _ |- _ => try (exfalso; apply H; split; lra)
           | H : Routes.Error400 _ = _ |- _ => try discriminate H
           | H : Routes.Ok200 _ = _ |- _ => try discriminate H
           end;
    try lra; try reflexivity; try (eexists; reflexivity);
    try (intros [? ?]; lra).
Qed.

(** ** The calculator *)

Lemma calc_tilt_at_least_5 (latitude : Q) :
  5 <= Calc._calculate_optimal_tilt latitude.
Proof.
  unfold Calc._calculate_optimal_tilt. cbv zeta.
  pose proof (Qabs_nonneg latitude) as A.
  set (a := Qabs latitude) in *. branches; lra.
Qed.

(** X18: the calculator's tilt is never more than 5 degrees away from
    |latitude| and never below 5; for |latitude| <= 90 it is at most 85. *)
Theorem calc_tilt_near_latitude (latitude : Q) :
  let tilt := Calc._calculate_optimal_tilt latitude in
  5 <= tilt /\
  Qabs (tilt - Qabs latitude) <= 5 /\
  (Qabs latitude <= 90 -> tilt <= 85).
Proof.
  intros tilt. unfold tilt, Calc._calculate_optimal_tilt. cbv zeta.
  pose proof (Qabs_nonneg latitude) as A.
  set (a := Qabs latitude) in *.
  branches; (split; [lra|]); (split; [|intros; lra]);
    apply Qabs_Qle_condition; split; lra.
Qed.

Lemma calc_tilt_near_latitude_witness :
  Calc._calculate_optimal_tilt 51.5 <= 85.
Proof. apply (calc_tilt_near_latitude 51.5). vm_compute. discriminate. Defined.

(** X19: the calculator's annual irradiance lies in [800, 2400]; beyond 60
    degrees of latitude it is the floor of 800, and up to 60 degrees the
    floor is never reached: the value is (2000 - 15|latitude|) times 1.2
    below 23.5 degrees, 1.1 from 23.5 to 35 and 0.9 above 35, at least 990. *)
Theorem calc_annual_irradiance_floor (latitude longitude : Q) :
  let a := Qabs latitude in
  let annual := Calc._calculate_annual_irradiance latitude longitude in
  800 <= annual <= 2400 /\
  (if Qlt_le_dec 60 a then annual == 800
   else annual == (2000 - a * 15)
                  * (if Qlt_le_dec a 23.5 then 1.2
                     else if Qlt_le_dec 35 a then 0.9 else 1.1)
        /\ 990 <= annual).
Proof.
  intros a annual. unfold annual, Calc._calculate_annual_irradiance.
  cbv zeta. fold a.
  pose proof (Qabs_nonneg latitude) as A. fold a in A.
  destruct (max_cases 800
              ((2000 - a * 15)
               * (if Py.leb 23.5 a && Py.leb a 35 then 1.1
                  else if Py.leb a 23.5 then 1.2
                  else if Py.ltb 35 a && Py.leb a 60 then 0.9 else 0.7)))
    as [[L ->] | [L ->]]; revert L;
    branches; intros L;
    repeat match goal with
           | |- context [Qlt_le_dec ?x ?y] => destruct (Qlt_le_dec x y)
           end;
    repeat split; try lra.
Qed.

Lemma calc_annual_at_least_800 (latitude longitude : Q) :
  800 <= Calc._calculate_annual_irradiance latitude longitude.
Proof.
  unfold Calc._calculate_annual_irradiance. cbv zeta.
  match goal with
  | |- _ <= Py.max 800 ?x =>
      destruct (max_cases 800 x) as [[L ->] | [L ->]]; lra
  end.
Qed.


(** X21: the cap of 35 on the calculator's efficiency gain is never
    reached: the gain is at most 32.5 for any latitude and tilt, it is at
    least 8 for a tilt that is not negative, and it exceeds 8 for the tilt
    the calculator itself chooses. *)
Theorem calc_efficiency_below_cap (latitude tilt : Q) :
  Calc._calculate_efficiency_gain latitude tilt <= 32.5 /\
  (0 <= tilt -> 8 <= Calc._calculate_efficiency_gain latitude tilt) /\
  8 < Calc._calculate_efficiency_gain latitude
        (Calc._calculate_optimal_tilt latitude).
Proof.
  assert (G : forall t,
             Calc._calculate_efficiency_gain latitude t <= 32.5 /\
             (0 <= t -> 8 <= Calc._calculate_efficiency_gain latitude t) /\
             (5 <= t -> 8 < Calc._calculate_efficiency_gain latitude t)).
  { intros t. unfold Calc._calculate_efficiency_gain. cbv zeta.
    set (a := Qabs latitude).
    assert (D : t / 45 == t * (1 # 45)) by (unfold Qdiv; reflexivity).
    destruct (min_cases 1.0 (t / 45)) as [[L ->] | [L ->]]; rewrite D in *;
      set (f := t * (1 # 45)) in *.
    - branches;
        match goal with
        | |- context [Py.min 35 ?x] =>
            destruct (min_cases 35 x) as [[M ->] | [M ->]]
        end; repeat split; intros; lra.
    - assert (F : f == t * (1 # 45)) by reflexivity. clearbody f.
      branches;
        match goal with
        | |- context [Py.min 35 ?x] =>
            destruct (min_cases 35 x) as [[M ->] | [M ->]]
        end; repeat split; intros; lra. }
  destruct (G tilt) as (U & L & _).
  destruct (G (Calc._calculate_optimal_tilt latitude)) as (_ & _ & O).
  repeat split; try assumption.
  apply O. apply calc_tilt_at_least_5.
Qed.

Lemma calc_efficiency_below_cap_witness :
  8 <= Calc._calculate_efficiency_gain 51.5 46.5.
Proof.
  apply (calc_efficiency_below_cap 51.5 46.5). vm_compute. discriminate.
Defined.

(** X22: the calculator gives five tips when the tilt is above 30 or below
    15 and four otherwise, so its truncation to five never removes a tip;
    with the tilt the calculator itself chooses there are five tips for
    |latitude| < 10 or |latitude| > 30 and four in between.  The list always
    ends with the two general tips. *)
Theorem calc_tips_count (float_str : Q -> string) (latitude tilt azimuth : Q) :
  let tips := Calc._generate_optimization_tips float_str latitude tilt azimuth in
  let own := Calc._generate_optimization_tips float_str latitude
               (Calc._calculate_optimal_tilt latitude) azimuth in
  List.length tips = (if Py.ltb 30 tilt || Py.ltb tilt 15 then 5 else 4)%nat /\
  List.length own
  = (if Qlt_le_dec (Qabs latitude) 10 then 5
     else if Qlt_le_dec 30 (Qabs latitude) then 5 else 4)%nat /\
  skipn (List.length tips - 2) tips
  = ["Regular cleaning improves efficiency by 2-5%";
     "Avoid shading between 10 AM - 2 PM for optimal performance"]%string.
Proof.
  intros tips own.
  assert (G : forall t,
             let l := Calc._generate_optimization_tips float_str latitude t azimuth in
             List.length l = (if Py.ltb 30 t || Py.ltb t 15 then 5 else 4)%nat /\
             skipn (List.length l - 2) l
             = ["Regular cleaning improves efficiency by 2-5%";
                "Avoid shading between 10 AM - 2 PM for optimal performance"]%string).
  { intros t. unfold Calc._generate_optimization_tips. cbv zeta.
    destruct (Py.ltb 30 t), (Py.ltb t 15),
      (Py.ltb (Qabs latitude) 23.5), (Py.ltb (Qabs latitude) 40);
      split; reflexivity. }
  destruct (G tilt) as [L S]. split; [exact L|]. split; [|exact S].
  unfold own.
  destruct (G (Calc._calculate_optimal_tilt latitude)) as [-> _].
  unfold Calc._calculate_optimal_tilt. cbv zeta.
  pose proof (Qabs_nonneg latitude) as A.
  set (a := Qabs latitude) in *.
  destruct (Qlt_le_dec a 10); [|destruct (Qlt_le_dec 30 a)];
    split_leb a 25; try split_leb a 50;
    branches; try reflexivity; lra.
Qed.

(** ** The route with the simulated weather *)

Lemma calc_tips_at_most_5 (float_str : Q -> string) (latitude tilt azimuth : Q) :
  (List.length (Calc._generate_optimization_tips float_str latitude tilt azimuth)
   <= 5)%nat.
Proof.
  unfold Calc._generate_optimization_tips. cbv zeta.
  destruct (Py.ltb 30 tilt), (Py.ltb tilt 15),
    (Py.ltb (Qabs latitude) 23.5), (Py.ltb (Qabs latitude) 40); cbn; lia.
Qed.

Lemma Forall2_map_self {A : Type} (R : A -> A -> Prop) (f : A -> A) (l : list A) :
  (forall x, R (f x) x) -> Forall2 R (map f l) l.
Proof. intros H. induction l; cbn; constructor; auto. Qed.

(** X23: for coordinates in range, asking the route for weather sets
    [weather_adjusted], multiplies the already rounded annual irradiance and
    every monthly value and irradiance by 0.88 for |latitude| < 30, by 0.85
    for |latitude| < 50 and by 0.82 beyond, records the band's temperature
    (28, 15 or 5) in every month, and appends one tip (corrosion below 30
    degrees, wind from 50 degrees) or none in between: at most six tips. *)
Theorem route_weather_adjustment (float_str : Q -> string) (lat lng : Q) :
  -90 <= lat <= 90 -> -180 <= lng <= 180 ->
  let request flag :=
    {| Routes.latitude := lat; Routes.longitude := lng;
       Routes.include_weather := Some flag |} in
  let a := Qabs lat in
  let factor := if Qlt_le_dec a 30 then 0.88
                else if Qlt_le_dec a 50 then 0.85 else 0.82 in
  let degrees := if Qlt_le_dec a 30 then 28
                 else if Qlt_le_dec a 50 then 15 else 5 in
  let extra_tips := if Qlt_le_dec a 30 then [Calc.corrosion_tip]
                    else if Qlt_le_dec a 50 then [] else [Calc.wind_tip] in
  exists plain adjusted,
    Routes.get_solar_data float_str (request false) = Routes.Ok200 plain /\
    Routes.get_solar_data float_str (request true) = Routes.Ok200 adjusted /\
    Calc.s_weather_adjusted plain = false /\
    Calc.s_weather_adjusted adjusted = true /\
    Calc.s_annual_irradiance adjusted
      == Calc.s_annual_irradiance plain * factor /\
    Forall2 (fun e e0 =>
               Calc.m_month e = Calc.m_month e0 /\
               Calc.m_value e == Calc.m_value e0 * factor /\
               Calc.m_irradiance e == Calc.m_irradiance e0 * factor /\
               Calc.m_temperature e = Some degrees)
            (Calc.s_monthly_data adjusted) (Calc.s_monthly_data plain) /\
    Calc.s_tips adjusted = Calc.s_tips plain ++ extra_tips /\
    (List.length (Calc.s_tips adjusted) <= 6)%nat.
Proof.
  intros [La Lb] [Ga Gb] request a factor degrees extra_tips.
  assert (V : forall flag,
             Routes.get_solar_data float_str (request flag)
             = Routes.Ok200
                 (Calc.combine_solar_weather_data
                    (Calc.calculate_optimal_positioning float_str lat lng)
                    (if flag then Service.get_weather_data lat lng else None))).
  { intros flag. unfold Routes.get_solar_data, request.
    cbn [Routes.latitude Routes.longitude Routes.include_weather].
    apply leb_true in La, Lb, Ga, Gb. rewrite La, Lb, Ga, Gb.
    cbn [andb negb]. now destruct flag. }
  do 2 eexists. split; [apply (V false)|]. split; [apply (V true)|].
  pose proof (calc_tips_at_most_5 float_str lat
                (Calc._calculate_optimal_tilt lat)
                (Calc._calculate_optimal_azimuth lat)) as T5.
  unfold Service.get_weather_data. cbv zeta. fold a.
  unfold factor, degrees, extra_tips.
  destruct (Qlt_le_dec a 30) as [B30 | B30]; [|destruct (Qlt_le_dec a 50) as [B50 | B50]];
    split_ltb a 30; try lra; try (split_ltb a 50; try lra);
    cbn [Calc.combine_solar_weather_data Calc.s_weather_adjusted
         Calc.s_annual_irradiance Calc.s_monthly_data Calc.s_tips
         Calc.calculate_optimal_positioning Calc.flag_set
         Service.w_cloud_cover Service.w_temperature
         Service.w_high_humidity Service.w_high_wind];
    (split; [reflexivity|]); (split; [reflexivity|]);
    (split; [ring|]);
    (split; [apply Forall2_map_self; intros e;
             cbn [Calc.m_month Calc.m_value Calc.m_irradiance Calc.m_temperature];
             repeat split; ring|]);
    rewrite ?app_nil_r; (split; [reflexivity|]);
    rewrite ?length_app; cbn [List.length]; lia.
Qed.

Lemma route_weather_adjustment_witness :
  exists adjusted,
    Routes.get_solar_data (fun _ => "?"%string)
      {| Routes.latitude := 51.5; Routes.longitude := 0;
         Routes.include_weather := Some true |} = Routes.Ok200 adjusted /\
    Calc.s_weather_adjusted adjusted = true /\
    (List.length (Calc.s_tips adjusted) <= 6)%nat.
Proof.
  destruct (route_weather_adjustment (fun _ => "?"%string) 51.5 0)
    as (plain & adjusted & _ & R & _ & W & _ & _ & _ & L);
    [split; vm_compute; discriminate | split; vm_compute; discriminate |].
  exists adjusted. repeat split; assumption.
Defined.

(** * When the handler of [backend/main.py] answers 500 *)

Lemma weather_raises_iff (lat lng : Q) (net : fetch) :
  (exists e, get_weather_data lat lng net = Raised e)
  <-> exists data, net = Body data /\ digestible data = false.
Proof.
  destruct net as [| | data].
  - split; [intros [e H]; discriminate H | intros (d & H & _); discriminate H].
  - split; [intros [e H]; discriminate H | intros (d & H & _); discriminate H].
  - assert (G : (exists e, get_weather_data lat lng (Body data) = Raised e)
                <-> digestible data = false).
    { destruct data as [| | | | |members];
        try (split; [reflexivity | intros _; eexists; reflexivity]).
      cbn [get_weather_data Json.get bind digestible].
      destruct (Json.lookup "current" members) as [current |];
        [|split; [intros [e H]; discriminate H | discriminate]].
      destruct (Json.truthy current) eqn:T; cbn [negb orb];
        [|split; [intros [e H]; discriminate H | discriminate]].
      destruct current as [| | | | |ms];
        try (split; [reflexivity | intros _; eexists; reflexivity]).
      cbn [Json.get bind has_measurements measurement_keys forallb].
      destruct (_get_weather_description_and_icon _ _) as [description icon].
      destruct (Json.lookup "temperature_2m" ms) as [[]|];
        cbn [Json.round1 Json.round bind numeric andb];
        try (split; [reflexivity | intros _; eexists; reflexivity]);
        (destruct (Json.lookup "relative_humidity_2m" ms) as [[]|];
         cbn [Json.round1 Json.round bind numeric andb];
         try (split; [reflexivity | intros _; eexists; reflexivity]));
        (destruct (Json.lookup "cloud_cover" ms) as [[]|];
         cbn [Json.round1 Json.round bind numeric andb];
         try (split; [reflexivity | intros _; eexists; reflexivity]));
        (destruct (Json.lookup "wind_speed_10m" ms) as [[]|];
         cbn [Json.round1 Json.round bind numeric andb];
         try (split; [reflexivity | intros _; eexists; reflexivity]));
        (split; [intros [e H]; discriminate H | discriminate]). }
    rewrite G. split.
    + intros D. now exists data.
    + intros (d & E & D). now inversion E; subst.
Qed.


